(** * Calorie lookup service (services/usdaService.js)

    A shallow embedding of the [USDAService] class: the cached search
    against the nutrition database ([searchFoods]), the candidate matcher
    ([findBestMatch]), the energy extractor ([extractCalories]) and the
    orchestrating [getCalories], with the properties the specification
    states about them.

    Conventions of the embedding.
    - A JavaScript string is a [string]: the bytes of its UTF-8 form.
      [trim] strips the white space characters of the language, those
      outside ASCII included; [toLowerCase] lowers the ASCII letters, and no
      character outside ASCII lowers to a letter of the word the code
      searches for.  A number in a template literal is printed in decimal
      digits, as the language does below 10^21.
    - A JavaScript number is the rational value ([Q]) of a finite double
      where the code computes with fractions, and an integer ([Z]) where it
      holds an integer (an identifier, an HTTP status, a page size, a time
      stamp in milliseconds, the result of [Math.round] on a finite
      number).  Not-a-number and the infinities cannot arrive in a JSON
      document.  The one product the code computes is the product of
      doubles: it is rounded to the nearest double and overflows to an
      infinity, written [None]; it is a parameter of the service ([fmul]),
      and [Binary64.mul] computes it.
    - A method that awaits or touches the module-level cache is a function
      in the monad [Async]: it threads the [World] (the cache store and the
      log of requests sent upstream) and either returns or throws.
    - The three libraries the class calls are not part of the repository:
      the HTTP client and the fuzzy matcher are parameters, the cache
      follows the contract the specification gives for it. *)

From Stdlib Require Import ZArith QArith Qround Lqa String Ascii List Lia.
From stdpp Require Import gmap strings pretty.
Import ListNotations.

Local Open Scope string_scope.

(** ** JavaScript values the service touches *)

Module JsString.

(** The characters of ECMAScript's WhiteSpace and LineTerminator, each as
    the bytes of its UTF-8 form: TAB, LF, VT, FF, CR, SPACE, U+00A0,
    U+1680, U+2000 to U+200A, U+2028, U+2029, U+202F, U+205F, U+3000 and
    U+FEFF. *)
Definition whiteSpace : list string :=
  map (fun bytes => string_of_list_ascii (map ascii_of_nat bytes))
    [[9]; [10]; [11]; [12]; [13]; [32]; [194; 160]; [225; 154; 128];
     [226; 128; 128]; [226; 128; 129]; [226; 128; 130]; [226; 128; 131];
     [226; 128; 132]; [226; 128; 133]; [226; 128; 134]; [226; 128; 135];
     [226; 128; 136]; [226; 128; 137]; [226; 128; 138]; [226; 128; 168];
     [226; 128; 169]; [226; 128; 175]; [226; 129; 159]; [227; 128; 128];
     [239; 187; 191]].

(** [s] without its prefix [p], when it starts with it. *)
Fixpoint dropPrefix (p s : string) : option string :=
  match p, s with
  | EmptyString, _ => Some s
  | String a p', String b s' =>
      if Ascii.eqb a b then dropPrefix p' s' else None
  | String _ _, EmptyString => None
  end.

(** [s] without the character of [chars] it starts with, if any. *)
Fixpoint dropOne (chars : list string) (s : string) : option string :=
  match chars with
  | [] => None
  | c :: rest =>
      match dropPrefix c s with
      | Some r => Some r
      | None => dropOne rest s
      end
  end.

(** Drops characters of [chars] from the start for as long as there are
    some; [fuel] bounds the number of characters. *)
Fixpoint dropAll (chars : list string) (fuel : nat) (s : string) : string :=
  match fuel with
  | O => s
  | S n =>
      match dropOne chars s with
      | Some r => dropAll chars n r
      | None => s
      end
  end.

Fixpoint reverse (s acc : string) : string :=
  match s with
  | EmptyString => acc
  | String c s' => reverse s' (String c acc)
  end.

Definition trimStart (s : string) : string :=
  dropAll whiteSpace (String.length s) s.

(** The same from the end, on the reversed bytes. *)
Definition trimEnd (s : string) : string :=
  reverse
    (dropAll (map (fun c => reverse c EmptyString) whiteSpace) (String.length s)
       (reverse s EmptyString))
    EmptyString.

(** [String.prototype.trim] *)
Definition trim (s : string) : string := trimEnd (trimStart s).

Definition lowerChar (c : ascii) : ascii :=
  let n := nat_of_ascii c in
  if Nat.leb 65 n && Nat.leb n 90 then ascii_of_nat (n + 32) else c.

(** [String.prototype.toLowerCase] *)
Fixpoint toLowerCase (s : string) : string :=
  match s with
  | EmptyString => EmptyString
  | String c s' => String (lowerChar c) (toLowerCase s')
  end.

(** [String.prototype.includes]: [needle] occurs in [s] at some offset. *)
Fixpoint includes (s needle : string) : bool :=
  String.prefix needle s ||
  match s with
  | EmptyString => false
  | String _ s' => includes s' needle
  end.

(** Truthiness of a string: every string but the empty one. *)
Definition truthy (s : string) : bool :=
  match s with EmptyString => false | _ => true end.

End JsString.

Module JsNumber.

(** [Math.round]: the nearest integer, a tie going towards +infinity. *)
Definition Math_round (x : Q) : Z := Qfloor (x + (1 # 2)).

(** Truthiness of a number: every number but zero. *)
Definition truthy (x : Q) : bool := negb (Qeq_bool x 0).

(** [parseFloat] of a value that already is a number gives it back.  The
    [value] of a nutrient is a number, as the data model has it; a value
    sent as a string is not followed. *)
Definition parseFloat (x : Q) : Q := x.

(** A number inside a template literal, for the integers: the decimal
    digits, after a minus sign below zero. *)
Definition toString (n : Z) : string := pretty n.

End JsNumber.

(** The arithmetic of doubles (IEEE 754 binary64) on the rational values:
    a real number is rounded to the nearest number with a significand of
    53 bits, a tie going to the even significand, with exponents down to
    that of the subnormal numbers; a result of magnitude 2^1024 or more is
    an infinity, written [None]. *)
Module Binary64.

Definition pow2 (e : Z) : Q :=
  if (0 <=? e)%Z then inject_Z (2 ^ e) else 1 # Z.to_pos (2 ^ (- e)).

(** The largest [p] with [2^p <= n / d], for [n] positive. *)
Definition floorLog2 (n : Z) (d : positive) : Z :=
  let p0 := (Z.log2 n - Z.log2 (Zpos d))%Z in
  if Qle_bool (pow2 p0) (n # d) then p0 else (p0 - 1)%Z.

(** The integer nearest to [n / d], a tie going to the even one. *)
Definition roundHalfEven (n : Z) (d : positive) : Z :=
  let q := (n / Zpos d)%Z in
  let r := (n mod Zpos d)%Z in
  match (2 * r ?= Zpos d)%Z with
  | Lt => q
  | Gt => (q + 1)%Z
  | Eq => if Z.even q then q else (q + 1)%Z
  end.

(** The double nearest to [x]. *)
Definition ofQ (x : Q) : option Q :=
  let n := Qnum x in
  let d := Qden x in
  if (n =? 0)%Z then Some 0%Q else
  let a := Z.abs n in
  let e := Z.max (floorLog2 a d - 52) (-1074) in
  let scaled := Qred ((a # d) / pow2 e) in
  let k := roundHalfEven (Qnum scaled) (Qden scaled) in
  let m := Qred (inject_Z k * pow2 e) in
  if Qle_bool (pow2 1024) m then None
  else Some (if (n <? 0)%Z then (- m)%Q else m).

(** The product of two doubles. *)
Definition mul (x y : Q) : option Q := ofQ (x * y).

End Binary64.

(** What a [throw] carries: an [Error] built by the service with its
    message, the client's rejection with [error.response?.status], or the
    TypeError of a property read on [null] or [undefined]. *)
Inductive exn : Type :=
| Error (message : string)
| AxiosError (status : option Z)
| TypeError.

(** ** Data model *)

(** One entry of [foodNutrients].  A field that the document may leave out
    is an [option]. *)
Record Nutrient : Type := {
  nutrientId : Z;
  nutrientName : option string;
  value : option Q
}.

(** A food record of the search response, an object with the fields the
    service reads.  [foodNutrients] is [None] when the field is missing or
    is not an array; an element of the array is [None] when the document
    has [null] at that place. *)
Record Food : Type := {
  fdcId : Z;
  description : string;
  brandName : option string;
  ingredients : option string;
  foodNutrients : option (list (option Nutrient))
}.

(** The object [getCalories] returns.  [total_calories] is [None] when the
    product overflowed: [Math.round] gives an infinity back as it is. *)
Record CalorieResult : Type := {
  dish_name : string;
  servings : Q;
  calories_per_serving : Z;
  total_calories : option Z;
  source : string;
  matched_food : string;
  food_id : Z
}.

(** ** extractCalories *)

(** The callback of [find]: identifier 1008, or a name that contains
    "energy" once lowered. *)
Definition isEnergy (nutrient : Nutrient) : bool :=
  Z.eqb (nutrientId nutrient) 1008 ||
  match nutrientName nutrient with
  | Some name =>
      JsString.truthy name &&
      JsString.includes (JsString.toLowerCase name) "energy"
  | None => false
  end.

(** [Array.prototype.find] with that callback: the elements are visited in
    index order, the first one the callback accepts is returned, and the
    callback throws when the element is [null]. *)
Fixpoint find_energy (nutrients : list (option Nutrient)) : exn + option Nutrient :=
  match nutrients with
  | [] => inr None
  | None :: _ => inl TypeError
  | Some nutrient :: rest =>
      if isEnergy nutrient then inr (Some nutrient) else find_energy rest
  end.

(** The body of the [try] block. *)
Definition extractCalories_try (food : Food) : exn + option Q :=
  match foodNutrients food with
  | None => inr None
  | Some nutrients =>
      match find_energy nutrients with
      | inl e => inl e
      | inr None => inr None
      | inr (Some energyNutrient) =>
          match value energyNutrient with
          | Some v =>
              if JsNumber.truthy v then inr (Some (JsNumber.parseFloat v))
              else inr None
          | None => inr None
          end
      end
  end.

(** The method: whatever the body throws is caught and becomes [null]. *)
Definition extractCalories (food : Food) : option Q :=
  match extractCalories_try food with
  | inl _ => None
  | inr r => r
  end.

(** ** The result cache *)

(** An entry of the cache: the stored list and the time it was stored at,
    in milliseconds. *)
Record CacheEntry : Type := {
  entryValue : list (option Food);
  insertedAt : Z
}.

(** Modelled from the spec: the node-cache package behind
    [new NodeCache({ stdTTL: 3600 })] is a dependency, not a file of the
    repository.  Section 4.1 gives its contract: [set] stores the value
    with the current time stamp, [get] returns nothing when the key is
    absent or when [now - insertedAt > TTL], the time to live is 3600
    seconds, and expiry is checked on read while the store keeps the stale
    entry. *)
Module NodeCache.

Definition stdTTL : Z := 3600.

Definition ttl_ms : Z := stdTTL * 1000.

Definition get (now : Z) (key : string) (store : gmap string CacheEntry)
  : option (list (option Food)) :=
  match store !! key with
  | Some e => if Z.ltb ttl_ms (now - insertedAt e) then None else Some (entryValue e)
  | None => None
  end.

Definition set (now : Z) (key : string) (v : list (option Food))
    (store : gmap string CacheEntry) : gmap string CacheEntry :=
  <[key := {| entryValue := v; insertedAt := now |}]> store.

End NodeCache.

(** ** The HTTP client *)

(** What [axios.get] is called with. *)
Record Request : Type := {
  url : string;
  query : string;
  api_key : string;
  pageSize : Z;
  timeout : Z
}.

(** [response.data] of a search when it is not [null].  [foods] is [None]
    when the value has no such field or has [null] there: an object
    without it, and also the string that the client leaves in
    [response.data] when the body is empty or is not JSON.  An element of
    the array is [None] when the document has [null] at that place. *)
Record SearchResponse : Type := {
  foods : option (list (option Food))
}.

(** How the awaited call ends.  The client resolves on a 2xx status, with
    [response.data] ([None] when the body is the JSON value [null], so that
    reading a field of it throws); otherwise it rejects, and the error
    carries [response.status] when the server answered and no [response]
    on a network failure or a timeout. *)
Inductive AxiosOutcome : Type :=
| Resolved (data : option SearchResponse)
| Rejected (status : option Z).

(** What surrounds one call of a method: the clock when the call starts,
    the time the awaited request takes, and the answer the external source
    gives to a request at that moment. *)
Record Env : Type := {
  now : Z;
  latency : Z;
  axios_get : Request -> AxiosOutcome
}.

(** The state shared by all calls: the module-level cache, and the
    requests that went out so far, oldest first. *)
Record World : Type := {
  cacheStore : gmap string CacheEntry;
  requests : list Request
}.

(** ** Async methods: state and exceptions *)

Definition Async (A : Type) : Type := World -> (exn + A) * World.

Definition ret {A} (a : A) : Async A := fun w => (inr a, w).

Definition throw {A} (e : exn) : Async A := fun w => (inl e, w).

Definition bind {A B} (m : Async A) (k : A -> Async B) : Async B :=
  fun w =>
    match m w with
    | (inl e, w') => (inl e, w')
    | (inr a, w') => k a w'
    end.

(** [try { m } catch (error) { handler error }] *)
Definition tryCatch {A} (m : Async A) (handler : exn -> Async A) : Async A :=
  fun w =>
    match m w with
    | (inl e, w') => handler e w'
    | (inr a, w') => (inr a, w')
    end.

Declare Scope async_scope.
Delimit Scope async_scope with async.
Notation "x <- m ;; k" := (bind m (fun x => k))
  (at level 100, m at next level, right associativity) : async_scope.

Definition cache_get (env : Env) (key : string)
  : Async (option (list (option Food))) :=
  fun w => (inr (NodeCache.get (now env) key (cacheStore w)), w).

(** [cache.set] runs after the awaited request, [latency] later. *)
Definition cache_set (env : Env) (key : string) (v : list (option Food))
  : Async unit :=
  fun w =>
    (inr tt,
     {| cacheStore := NodeCache.set (now env + latency env) key v (cacheStore w);
        requests := requests w |}).

(** [await axios.get(...)]: the request is logged, then the call resolves
    or rejects. *)
Definition await_axios_get (env : Env) (req : Request) : Async (option SearchResponse) :=
  fun w =>
    let w' := {| cacheStore := cacheStore w; requests := requests w ++ [req] |} in
    match axios_get env req with
    | Resolved data => (inr data, w')
    | Rejected status => (inl (AxiosError status), w')
    end.

(** [error.response?.status] *)
Definition response_status (error : exn) : option Z :=
  match error with
  | AxiosError status => status
  | _ => None
  end.

(** ** The service *)

(** The messages of the errors the service throws, under the names the
    specification gives to the failures. *)
Inductive FailureKind : Type :=
| RateLimited | Unauthorized | Transient
| NotFound | NoMatch | CaloriesUnavailable.

(** The double quote that the last three messages put around the dish. *)
Definition dquote : string := String "034"%char EmptyString.

Definition failureMessage (k : FailureKind) (dishName : string) : string :=
  match k with
  | RateLimited => "USDA API rate limit exceeded. Please try again later."
  | Unauthorized => "Invalid USDA API key or access denied."
  | Transient => "Failed to fetch food data from USDA API"
  | NotFound => "No nutrition data found for " ++ dquote ++ dishName ++ dquote
  | NoMatch => "Could not find a suitable match for " ++ dquote ++ dishName ++ dquote
  | CaloriesUnavailable =>
      "Calorie information not available for " ++ dquote ++ dishName ++ dquote
  end.

(** One result of [fuse.search]: the matched element of the collection,
    its score and its index in the collection. *)
Record FuseResult : Type := {
  item : Food;
  score : Q;
  refIndex : nat
}.

(** The rounding and the product of [getCalories]: the per-serving value is
    rounded first, the product with the servings, a product of doubles
    ([fmul]), is rounded after. *)
Definition compute (fmul : Q -> Q -> option Q) (caloriesPer100g : Q) (servings : Q)
  : Z * option Z :=
  let caloriesPerServing := JsNumber.Math_round caloriesPer100g in
  let totalCalories :=
    option_map JsNumber.Math_round (fmul (inject_Z caloriesPerServing) servings) in
  (caloriesPerServing, totalCalories).

Section USDAService.

(** [this.apiKey] and [this.baseURL], read from the environment by the
    constructor. *)
Variable apiKey : string.
Variable baseURL : string.

(** The product of two doubles as the runtime computes it: the nearest
    double to the exact product, [None] for an infinity. *)
Variable fmul : Q -> Q -> option Q.

(** [new Fuse(foods, fuseOptions).search(query)] with the options of
    [findBestMatch] (keys description 0.7, brandName 0.2, ingredients
    0.1; threshold 0.6; minMatchCharLength 2): the results that clear the
    threshold, lowest score first.  A result is an element that matched on
    one of its text fields, a record.  The fuzzy matcher is a dependency of
    the repository and stays a parameter. *)
Variable Fuse_search : list (option Food) -> string -> list FuseResult.

Local Open Scope async_scope.

(** The template literal [`search_${query}_${pageSize}`]. *)
Definition cacheKey (query : string) (pageSize : Z) : string :=
  "search_" ++ query ++ "_" ++ JsNumber.toString pageSize.

(** The request of [searchFoods]: the query goes out trimmed. *)
Definition searchRequest (query : string) (pageSize : Z) : Request :=
  {| url := baseURL ++ "/foods/search";
     query := JsString.trim query;
     api_key := apiKey;
     pageSize := pageSize;
     timeout := 10000 |}.

(** The body of the [try] block of [searchFoods].  What the cache returns
    for a key it holds is an array, and an array, empty or not, is truthy:
    [if (cachedResult)] is taken exactly on a hit. *)
Definition searchFoods_try (env : Env) (query : string) (pageSize : Z)
  : Async (list (option Food)) :=
  let cacheKey := cacheKey query pageSize in
  cachedResult <- cache_get env cacheKey ;;
  match cachedResult with
  | Some cached => ret cached
  | None =>
      data <- await_axios_get env (searchRequest query pageSize) ;;
      match data with
      | None => throw TypeError
      | Some d =>
          let foods := match foods d with Some l => l | None => [] end in
          _ <- cache_set env cacheKey foods ;;
          ret foods
      end
  end.

(** The [catch] block of [searchFoods]. *)
Definition searchFoods_catch {A} (error : exn) : Async A :=
  match response_status error with
  | Some 429%Z => throw (Error (failureMessage RateLimited ""))
  | Some 403%Z => throw (Error (failureMessage Unauthorized ""))
  | _ => throw (Error (failureMessage Transient ""))
  end.

Definition searchFoods (env : Env) (query : string) (pageSize : Z)
  : Async (list (option Food)) :=
  tryCatch (searchFoods_try env query pageSize) searchFoods_catch.

(** [foods] is [None] for a [null] or [undefined] argument, and an element
    of the array is [None] where it is [null].  A list of one gives its
    element back as it is.  With more elements the two [console.log] lines
    read the [description] of what is returned: the best result of the
    matcher, a record, or else [foods[0]], and reading it throws when
    [foods[0]] is [null]. *)
Definition findBestMatch (foods : option (list (option Food))) (query : string)
  : exn + option Food :=
  match foods with
  | None => inr None
  | Some [] => inr None
  | Some [only] => inr only
  | Some ((first :: _) as l) =>
      match Fuse_search l query with
      | best :: _ => inr (Some (item best))
      | [] =>
          match first with
          | Some f => inr (Some f)
          | None => inl TypeError
          end
      end
  end.

(** A call that is not awaited and may throw, inside an async method. *)
Definition lift {A} (r : exn + A) : Async A :=
  fun w => (r, w).

(** The body of the [try] block of [getCalories]; [searchFoods] is called
    with its default page size. *)
Definition getCalories_try (env : Env) (dishName : string) (servings : Q)
  : Async CalorieResult :=
  foods <- searchFoods env dishName 25 ;;
  match foods with
  | [] => throw (Error (failureMessage NotFound dishName))
  | _ =>
      bestMatch <- lift (findBestMatch (Some foods) dishName) ;;
      match bestMatch with
      | None => throw (Error (failureMessage NoMatch dishName))
      | Some bestMatch =>
          match extractCalories bestMatch with
          | None => throw (Error (failureMessage CaloriesUnavailable dishName))
          | Some caloriesPer100g =>
              let '(caloriesPerServing, totalCalories) :=
                compute fmul caloriesPer100g servings in
              ret {| dish_name := dishName;
                     servings := servings;
                     calories_per_serving := caloriesPerServing;
                     total_calories := totalCalories;
                     source := "USDA FoodData Central";
                     matched_food := description bestMatch;
                     food_id := fdcId bestMatch |}
          end
      end
  end.

(** The [catch] block logs the error and throws it again. *)
Definition getCalories (env : Env) (dishName : string) (servings : Q)
  : Async CalorieResult :=
  tryCatch (getCalories_try env dishName servings) (fun error => throw error).

(** Calls made one after the other, each awaited before the next starts,
    all with the same query and page size: the results in order and the
    world after the last one. *)
Fixpoint searchFoods_repeat (calls : list Env) (query : string) (pageSize : Z)
    (w : World) : list (exn + list (option Food)) * World :=
  match calls with
  | [] => ([], w)
  | env :: rest =>
      let '(r, w1) := searchFoods env query pageSize w in
      let '(rs, w2) := searchFoods_repeat rest query pageSize w1 in
      (r :: rs, w2)
  end.

End USDAService.

Arguments cacheKey query pageSize : assert.
Arguments findBestMatch Fuse_search foods query : assert.

(** ** The constructor of the service *)

(** The object [new USDAService()] builds. *)
Record USDAService : Type := {
  this_apiKey : string;
  this_baseURL : option string
}.

(** The constructor reads [process.env.USDA_API_KEY] and
    [process.env.USDA_API_BASE_URL], each a string or [undefined], and
    throws when the key is falsy. *)
Definition USDAService_new (USDA_API_KEY USDA_API_BASE_URL : option string)
  : exn + USDAService :=
  match USDA_API_KEY with
  | Some k =>
      if JsString.truthy k
      then inr {| this_apiKey := k; this_baseURL := USDA_API_BASE_URL |}
      else inl (Error "USDA API key is required")
  | None => inl (Error "USDA API key is required")
  end.

(** A string or [undefined] inside a template literal. *)
Definition inTemplate (s : option string) : string :=
  match s with
  | Some s => s
  | None => "undefined"
  end.

(** [searchFoods] as a method of the object. *)
Definition USDAService_searchFoods (this : USDAService) (env : Env)
    (query : string) (pageSize : Z) : Async (list (option Food)) :=
  searchFoods (this_apiKey this) (inTemplate (this_baseURL this)) env query pageSize.

(** ** The route POST /get-calories (routes/calories.js) *)

Module Http.

(** What [res.json] is given: the calorie data, or an object with the
    fields [error] and [message]. *)
Inductive Body : Type :=
| Data (calorieData : CalorieResult)
| Failure (error : string) (message : string).

(** What the handler sends: [res.json(x)] alone sends with status 200. *)
Record Response : Type := {
  status : Z;
  body : Body
}.

End Http.

Section CaloriesRoute.

Variables apiKey baseURL : string.
Variable fmul : Q -> Q -> option Q.
Variable Fuse_search : list (option Food) -> string -> list FuseResult.

(** [error.message] of an error that is not an [Error] of the service: the
    text is the library's. *)
Variable libraryMessage : exn -> string.

Local Open Scope async_scope.

(** [error.message] *)
Definition error_message (error : exn) : string :=
  match error with
  | Error message => message
  | other => libraryMessage other
  end.

(** The [catch] block of the handler. *)
Definition getCaloriesHandler_catch (dish_name : string) (error : exn)
  : Async Http.Response :=
  if JsString.includes (error_message error) "No nutrition data found" then
    ret {| Http.status := 404;
           Http.body :=
             Http.Failure "Dish not found"
               ("We couldn't find nutrition information for " ++ dquote ++ dish_name
                ++ dquote ++ ". Try using a more specific or common dish name.") |}
  else if JsString.includes (error_message error) "rate limit" then
    ret {| Http.status := 429;
           Http.body :=
             Http.Failure "Service temporarily unavailable"
               "Too many requests. Please try again in a few minutes." |}
  else
    ret {| Http.status := 500;
           Http.body :=
             Http.Failure "Unable to fetch calorie information"
               "Please try again with a different dish name or contact support if the problem persists." |}.

(** The handler of the route, after the middleware: [dish_name] and
    [servings] are the fields of [req.body]. *)
Definition getCaloriesHandler (env : Env) (dish_name : string) (servings : Q)
  : Async Http.Response :=
  tryCatch
    (calorieData <- getCalories apiKey baseURL fmul Fuse_search env dish_name servings ;;
     ret {| Http.status := 200; Http.body := Http.Data calorieData |})
    (getCaloriesHandler_catch dish_name).

End CaloriesRoute.

(** ** Vocabulary of the statements *)

(** The error [searchFoods] throws for the status the caught error
    carries. *)
Definition thrownFor (status : option Z) : exn :=
  match status with
  | Some 429%Z => Error (failureMessage RateLimited "")
  | Some 403%Z => Error (failureMessage Unauthorized "")
  | _ => Error (failureMessage Transient "")
  end.

(** The error of a failure of the source; its message names no dish. *)
Definition sourceError (k : FailureKind) : exn := Error (failureMessage k "").

(** The world once a request went out. *)
Definition sent (req : Request) (w : World) : World :=
  {| cacheStore := cacheStore w; requests := requests w ++ [req] |}.

(** The world once the answer was stored. *)
Definition stored (env : Env) (key : string) (l : list (option Food)) (w : World) : World :=
  {| cacheStore := NodeCache.set (now env + latency env) key l (cacheStore w);
     requests := requests w |}.

(** [foods || []] *)
Definition foodsOrEmpty (d : SearchResponse) : list (option Food) :=
  match foods d with Some l => l | None => [] end.

(** Every candidate is a record: the list holds no [null]. *)
Definition allRecords (l : list (option Food)) : Prop :=
  Forall (fun x => exists f, x = Some f) l.

(** An element of the nutrient list that the scan passes over: a record
    the callback refuses. *)
Definition passedOver (x : option Nutrient) : Prop :=
  exists n, x = Some n /\ isEnergy n = false.

(** [e] is the first entry of [nutrients], in index order, that the
    callback accepts. *)
Definition firstEnergy (nutrients : list (option Nutrient)) (e : Nutrient) : Prop :=
  exists before after,
    nutrients = (before ++ Some e :: after)%list /\
    Forall passedOver before /\
    isEnergy e = true.

(** [needle] occurs in [s]. *)
Definition occursIn (needle s : string) : Prop :=
  exists before after, s = before ++ needle ++ after.

(** Calls made one after the other from time [t] on: each starts no
    earlier than the one before it ended. *)
Fixpoint inOrder (t : Z) (calls : list Env) : Prop :=
  match calls with
  | [] => True
  | e :: rest =>
      (t <= now e)%Z /\ (0 <= latency e)%Z /\ inOrder (now e + latency e) rest
  end.

(** The source answers whatever it is asked at that moment. *)
Definition answers (e : Env) : Prop :=
  forall req, exists d, axios_get e req = Resolved (Some d).


(** No character of [s] is [c]. *)
Fixpoint freeOf (c : ascii) (s : string) : Prop :=
  match s with
  | EmptyString => True
  | String a s' => a <> c /\ freeOf c s'
  end.

(** ** Sample data

    A few records and surroundings on which the statements below are
    evaluated. *)
Module Samples.

Definition protein : Nutrient :=
  {| nutrientId := 1003; nutrientName := Some "Protein"; value := Some (31 # 2) |}.

Definition fat : Nutrient :=
  {| nutrientId := 1004; nutrientName := Some "Total lipid (fat)"; value := Some (9 # 1) |}.

Definition energy (kcal : Q) : Nutrient :=
  {| nutrientId := 1008; nutrientName := Some "Energy"; value := Some kcal |}.

Definition energy_no_value : Nutrient :=
  {| nutrientId := 1008; nutrientName := Some "Energy"; value := None |}.

Definition food (id : Z) (name : string) (nutrients : list (option Nutrient)) : Food :=
  {| fdcId := id; description := name; brandName := None; ingredients := None;
     foodNutrients := Some nutrients |}.

Definition biryani : Food :=
  food 2341 "Chicken biryani, with rice" [Some protein; Some (energy 280)].

Definition porridge : Food :=
  food 77 "Porridge, oat" [Some protein; Some (energy 101)].

Definition water : Food :=
  food 9 "Water, tap" [Some (energy 0)].

Definition tofu : Food :=
  food 12 "Tofu, plain" [Some protein; Some fat].

(** A matcher for which nothing clears the threshold. *)
Definition fuse_nothing : list (option Food) -> string -> list FuseResult :=
  fun _ _ => [].

(** A matcher that keeps the candidates whose description starts with the
    query, in the order of the collection. *)
Definition fuse_prefix : list (option Food) -> string -> list FuseResult :=
  fun l q =>
    flat_map
      (fun x =>
         match x with
         | Some f =>
             if String.prefix q (description f)
             then [{| item := f; score := 0; refIndex := 0 |}]
             else []
         | None => []
         end) l.

(** The source answers every request with the given records. *)
Definition answering (t : Z) (l : list (option Food)) : Env :=
  {| now := t; latency := 120;
     axios_get := fun _ => Resolved (Some {| foods := Some l |}) |}.

(** The source answers every request with the given status. *)
Definition refusing (t : Z) (status : Z) : Env :=
  {| now := t; latency := 120; axios_get := fun _ => Rejected (Some status) |}.

(** The source is not reached. *)
Definition unreachable (t : Z) : Env :=
  {| now := t; latency := 10000; axios_get := fun _ => Rejected None |}.

(** The source answers 200 with a body that is not JSON, or with no body:
    the client resolves and leaves the text in [response.data], a string,
    which has no field [foods]. *)
Definition garbled (t : Z) : Env :=
  {| now := t; latency := 120;
     axios_get := fun _ => Resolved (Some {| foods := None |}) |}.

Definition fresh : World := {| cacheStore := ∅; requests := [] |}.

Definition key : string := "DEMO_KEY".

Definition base : string := "https://api.nal.usda.gov/fdc/v1".

(** The answer to two servings of the first record. *)
Definition biryani_result : CalorieResult :=
  {| dish_name := "chicken biryani";
     servings := 2;
     calories_per_serving := 280;
     total_calories := Some 560%Z;
     source := "USDA FoodData Central";
     matched_food := "Chicken biryani, with rice";
     food_id := 2341 |}.

End Samples.

(** ** Properties *)

(** *** Strings and numbers *)

Lemma failureMessage_kind k k' d d' :
  failureMessage k d = failureMessage k' d' -> k = k'.
Proof.
  destruct k, k'; simpl; intros H; try reflexivity; discriminate H.
Qed.

Lemma Math_round_spec (x : Q) :
  (inject_Z (JsNumber.Math_round x) <= x + (1 # 2))%Q /\
  (x + (1 # 2) < inject_Z (JsNumber.Math_round x + 1))%Q.
Proof.
  unfold JsNumber.Math_round. split.
  - apply Qfloor_le.
  - apply Qlt_floor.
Qed.

Lemma Math_round_integer (z : Z) :
  JsNumber.Math_round (inject_Z z) = z.
Proof.
  unfold JsNumber.Math_round, Qplus, inject_Z, Qfloor; simpl.
  rewrite Z.mul_1_r.
  symmetry. apply (Z.div_unique_pos _ _ _ 1); lia.
Qed.

Lemma Math_round_Qeq (x y : Q) :
  (x == y)%Q -> JsNumber.Math_round x = JsNumber.Math_round y.
Proof.
  intros H. unfold JsNumber.Math_round. apply Qfloor_comp. now rewrite H.
Qed.

(** *** The search, step by step *)

Section SearchFacts.

Variables apiKey baseURL : string.

Lemma searchFoods_hit env q p w cached :
  NodeCache.get (now env) (cacheKey q p) (cacheStore w) = Some cached ->
  searchFoods apiKey baseURL env q p w = (inr cached, w).
Proof.
  intros H. unfold searchFoods, tryCatch, searchFoods_try, bind, cache_get.
  now rewrite H.
Qed.

Lemma searchFoods_miss env q p w :
  NodeCache.get (now env) (cacheKey q p) (cacheStore w) = None ->
  searchFoods apiKey baseURL env q p w =
  let req := searchRequest apiKey baseURL q p in
  match axios_get env req with
  | Resolved (Some d) =>
      (inr (foodsOrEmpty d), stored env (cacheKey q p) (foodsOrEmpty d) (sent req w))
  | Resolved None => (inl (thrownFor None), sent req w)
  | Rejected status => (inl (thrownFor status), sent req w)
  end.
Proof.
  intros H.
  unfold searchFoods, tryCatch, searchFoods_try, bind, cache_get, await_axios_get.
  rewrite H. cbn zeta.
  destruct (axios_get env _) as [[d|]|status]; try reflexivity.
  unfold searchFoods_catch, thrownFor, response_status, throw.
  destruct status as [[|s|s]|]; try reflexivity.
  repeat (destruct s as [s|s|]; try reflexivity).
Qed.

(** An error that leaves [searchFoods] is one of its three. *)
Lemma searchFoods_throws env q p w e w' :
  searchFoods apiKey baseURL env q p w = (inl e, w') ->
  exists status, e = thrownFor status.
Proof.
  destruct (NodeCache.get (now env) (cacheKey q p) (cacheStore w)) as [c|] eqn:Hget.
  - rewrite (searchFoods_hit _ _ _ _ _ Hget). discriminate.
  - rewrite (searchFoods_miss _ _ _ _ Hget). cbn zeta.
    destruct (axios_get env _) as [[d|]|status]; intros Heq.
    + discriminate Heq.
    + exists None. congruence.
    + exists status. congruence.
Qed.

Lemma thrownFor_cases status :
  thrownFor status = Error (failureMessage RateLimited "") /\ status = Some 429%Z \/
  thrownFor status = Error (failureMessage Unauthorized "") /\ status = Some 403%Z \/
  thrownFor status = Error (failureMessage Transient "") /\
    status <> Some 429%Z /\ status <> Some 403%Z.
Proof.
  destruct (decide (status = Some 429%Z)) as [->|H1]; [left; auto|].
  destruct (decide (status = Some 403%Z)) as [->|H2]; [right; left; auto|].
  right; right. split; [|auto].
  unfold thrownFor. destruct status as [[|s|s]|]; try reflexivity.
  repeat (destruct s as [s|s|]; try reflexivity; try congruence).
Qed.

End SearchFacts.

(** *** The lookup, step by step *)

Section LookupFacts.

Variables apiKey baseURL : string.
Variable fmul : Q -> Q -> option Q.
Variable Fuse_search : list (option Food) -> string -> list FuseResult.

Lemma findBestMatch_some (l : list (option Food)) (q : string) :
  l <> [] -> allRecords l ->
  exists c, findBestMatch Fuse_search (Some l) q = inr (Some c).
Proof.
  destruct l as [|a [|b l]]; intros Hne Hrec; [congruence | |];
    apply Forall_cons in Hrec as [[f ->] _]; simpl; eauto.
  destruct (Fuse_search _ q); eauto.
Qed.

(** What [findBestMatch] can give for a list that is not empty: a record,
    or the [null] of a list of one, or the error of reading a [null] first
    element. *)
Lemma findBestMatch_cases (l : list (option Food)) (q : string) :
  l <> [] ->
  (exists c, findBestMatch Fuse_search (Some l) q = inr (Some c)) \/
  (l = [None] /\ findBestMatch Fuse_search (Some l) q = inr None) \/
  (exists rest, l = None :: rest /\ rest <> [] /\
                findBestMatch Fuse_search (Some l) q = inl TypeError).
Proof.
  destruct l as [|a [|b l]]; intros Hne; [congruence | |].
  - destruct a as [f|]; simpl; eauto.
  - simpl. destruct (Fuse_search _ q); [|eauto].
    destruct a as [f|]; [eauto|].
    right; right. exists (b :: l). repeat split; discriminate.
Qed.

(** What [getCalories] does with the outcome of the search. *)
Lemma getCalories_after_search env dish s w r w' :
  searchFoods apiKey baseURL env dish 25 w = (r, w') ->
  getCalories apiKey baseURL fmul Fuse_search env dish s w =
  (match r with
   | inl e => inl e
   | inr [] => inl (Error (failureMessage NotFound dish))
   | inr l =>
       match findBestMatch Fuse_search (Some l) dish with
       | inl e => inl e
       | inr None => inl (Error (failureMessage NoMatch dish))
       | inr (Some best) =>
           match extractCalories best with
           | None => inl (Error (failureMessage CaloriesUnavailable dish))
           | Some c =>
               inr {| dish_name := dish;
                      servings := s;
                      calories_per_serving := fst (compute fmul c s);
                      total_calories := snd (compute fmul c s);
                      source := "USDA FoodData Central";
                      matched_food := description best;
                      food_id := fdcId best |}
           end
       end
   end, w').
Proof.
  intros Hs. unfold getCalories, tryCatch, getCalories_try, bind, lift. rewrite Hs.
  destruct r as [e|[|a l]]; try reflexivity.
  destruct (findBestMatch _ _ _) as [e|[best|]]; try reflexivity.
  destruct (extractCalories best) as [c|]; reflexivity.
Qed.

(** A successful lookup went through every stage. *)
Lemma getCalories_returns env dish s w res w' :
  getCalories apiKey baseURL fmul Fuse_search env dish s w = (inr res, w') ->
  exists l best c,
    searchFoods apiKey baseURL env dish 25 w = (inr l, w') /\
    l <> [] /\
    findBestMatch Fuse_search (Some l) dish = inr (Some best) /\
    extractCalories best = Some c /\
    res = {| dish_name := dish;
             servings := s;
             calories_per_serving := fst (compute fmul c s);
             total_calories := snd (compute fmul c s);
             source := "USDA FoodData Central";
             matched_food := description best;
             food_id := fdcId best |}.
Proof.
  destruct (searchFoods apiKey baseURL env dish 25 w) as [r w1] eqn:Hs.
  rewrite (getCalories_after_search _ _ _ _ _ _ Hs).
  destruct r as [e|[|a l]]; try discriminate.
  destruct (findBestMatch _ _ _) as [e|[best|]] eqn:Hb; try discriminate.
  destruct (extractCalories best) as [c|] eqn:Hc; [|discriminate].
  intros [= <- <-]. exists (a :: l), best, c. repeat split; auto; discriminate.
Qed.

End LookupFacts.

(** *** The candidate matcher *)

(** C9.  [findBestMatch] returns nothing for an empty list of candidates
    (and for no list at all), and the only candidate of a list of one,
    whatever the query asks for and whatever the fuzzy matcher would say. *)
Theorem findBestMatch_empty_and_single
    (Fuse_search : list (option Food) -> string -> list FuseResult)
    (only : option Food) (query : string) :
  findBestMatch Fuse_search None query = inr None /\
  findBestMatch Fuse_search (Some []) query = inr None /\
  findBestMatch Fuse_search (Some [only]) query = inr only.
Proof. repeat split. Qed.




(** *** The calorie arithmetic *)

(** C4.  The calculation rounds before it multiplies.  For the energy value
    of the food that the search and the matcher settled on, the result of
    the lookup carries that value rounded to the nearest integer (at most
    one half away) as the per-serving number, and as the total the product
    of that integer and the servings, a product of doubles, rounded in its
    turn.  [compute 280 2] gives 280 and 560, and [compute 87.4 3], on the
    double nearest to 87.4, gives 87 and 261. *)
Theorem compute_rounds_then_multiplies
    apiKey baseURL fmul Fuse_search env dish s w l w' best c :
  searchFoods apiKey baseURL env dish 25 w = (inr l, w') ->
  findBestMatch Fuse_search (Some l) dish = inr (Some best) ->
  extractCalories best = Some c ->
  (exists res,
     getCalories apiKey baseURL fmul Fuse_search env dish s w = (inr res, w') /\
     calories_per_serving res = JsNumber.Math_round c /\
     total_calories res =
       option_map JsNumber.Math_round (fmul (inject_Z (JsNumber.Math_round c)) s)) /\
  (c - (1 # 2) < inject_Z (JsNumber.Math_round c) <= c + (1 # 2))%Q /\
  compute Binary64.mul 280 2 = (280%Z, Some 560%Z) /\
  (exists x, Binary64.ofQ (874 # 10) = Some x /\
             compute Binary64.mul x 3 = (87%Z, Some 261%Z)).
Proof.
  intros Hs Hb Hc. split; [|split; [|split]].
  - rewrite (getCalories_after_search _ _ fmul Fuse_search _ _ s _ _ _ Hs).
    destruct l as [|a l]; [discriminate Hb|]. rewrite Hb, Hc.
    eexists. split; [reflexivity|]. split; reflexivity.
  - split.
    + destruct (Math_round_spec c) as [_ Hlt].
      rewrite inject_Z_plus in Hlt. change (inject_Z 1) with 1%Q in Hlt. lra.
    + apply Math_round_spec.
  - vm_compute. reflexivity.
  - exists (3075114120563917 # 35184372088832). split; vm_compute; reflexivity.
Qed.

Lemma compute_rounds_then_multiplies_witness :
  (exists res,
     getCalories Samples.key Samples.base Binary64.mul Samples.fuse_nothing
       (Samples.answering 0 [Some Samples.biryani]) "chicken biryani" 2 Samples.fresh
     = (inr res,
        snd (searchFoods Samples.key Samples.base
               (Samples.answering 0 [Some Samples.biryani]) "chicken biryani" 25
               Samples.fresh)) /\
     calories_per_serving res = JsNumber.Math_round 280 /\
     total_calories res =
       option_map JsNumber.Math_round
         (Binary64.mul (inject_Z (JsNumber.Math_round 280)) 2)) /\
  (280 - (1 # 2) < inject_Z (JsNumber.Math_round 280) <= 280 + (1 # 2))%Q /\
  compute Binary64.mul 280 2 = (280%Z, Some 560%Z) /\
  (exists x, Binary64.ofQ (874 # 10) = Some x /\
             compute Binary64.mul x 3 = (87%Z, Some 261%Z)).
Proof.
  apply (compute_rounds_then_multiplies Samples.key Samples.base Binary64.mul
           Samples.fuse_nothing (Samples.answering 0 [Some Samples.biryani])
           "chicken biryani" 2 Samples.fresh [Some Samples.biryani]
           (snd (searchFoods Samples.key Samples.base
                   (Samples.answering 0 [Some Samples.biryani]) "chicken biryani" 25
                   Samples.fresh))
           Samples.biryani 280%Q);
    [vm_compute; reflexivity | reflexivity | reflexivity].
Defined.

(** The product of doubles is not the exact product: 100 kcal and 1.005
    servings, 1.005 being the double nearest to it, give 100. *)
Example compute_double_product :
  exists x, Binary64.ofQ (1005 # 1000) = Some x /\
            compute Binary64.mul 100 x = (100%Z, Some 100%Z) /\
            JsNumber.Math_round (100 * (1005 # 1000)) = 101%Z.
Proof.
  exists (1131529406376837 # 1125899906842624).
  split; [|split]; vm_compute; reflexivity.
Qed.

(** The record a successful lookup returns carries the two numbers of
    [compute]. *)
Lemma getCalories_total apiKey baseURL fmul Fuse_search env dish s w res w' :
  getCalories apiKey baseURL fmul Fuse_search env dish s w = (inr res, w') ->
  servings res = s /\
  total_calories res =
    option_map JsNumber.Math_round (fmul (inject_Z (calories_per_serving res)) s).
Proof.
  intros H. apply getCalories_returns in H as (l & best & c & _ & _ & _ & _ & ->).
  split; reflexivity.
Qed.

(** C2, as it stands, fails: one and a half servings of a food of 101 kcal
    give a total of 152, and the product of 101 and 3/2 is 151.5. *)
Lemma total_calories_not_exact_product :
  ~ (forall apiKey baseURL fmul Fuse_search env dish s w res w' t,
       getCalories apiKey baseURL fmul Fuse_search env dish s w = (inr res, w') ->
       (0 < s)%Q ->
       total_calories res = Some t ->
       (inject_Z t == inject_Z (calories_per_serving res) * s)%Q).
Proof.
  intros H.
  specialize (H Samples.key Samples.base Binary64.mul Samples.fuse_nothing
                (Samples.answering 0 [Some Samples.porridge]) "porridge" (3 # 2)
                Samples.fresh).
  destruct (getCalories _ _ _ _ _ _ _ _) as [r w1] eqn:Hrun.
  vm_compute in Hrun. injection Hrun as <- <-.
  specialize (H _ _ 152%Z eq_refl eq_refl eq_refl). vm_compute in H. discriminate H.
Qed.

(** C2, amended.  The total of a successful lookup is the product of the
    rounded per-serving value and the servings, as the runtime computes it,
    rounded to the nearest integer in its turn: it is not the exact
    product. *)
Theorem total_calories_rounded_product
    apiKey baseURL fmul Fuse_search env dish s w res w' :
  getCalories apiKey baseURL fmul Fuse_search env dish s w = (inr res, w') ->
  (0 < s)%Q ->
  total_calories res =
    option_map JsNumber.Math_round (fmul (inject_Z (calories_per_serving res)) s).
Proof.
  intros H _. now apply getCalories_total in H as [_ Ht].
Qed.

Lemma total_calories_rounded_product_witness :
  (0 < 2)%Q /\
  total_calories Samples.biryani_result =
    option_map JsNumber.Math_round
      (Binary64.mul (inject_Z (calories_per_serving Samples.biryani_result)) 2).
Proof.
  split; [reflexivity|].
  apply (total_calories_rounded_product Samples.key Samples.base Binary64.mul
           Samples.fuse_nothing
           (Samples.answering 0 [Some Samples.biryani]) "chicken biryani" 2 Samples.fresh
           Samples.biryani_result
           (snd (getCalories Samples.key Samples.base Binary64.mul Samples.fuse_nothing
                   (Samples.answering 0 [Some Samples.biryani]) "chicken biryani" 2
                   Samples.fresh)));
    [vm_compute; reflexivity | reflexivity].
Defined.

(** *** The energy extractor *)

Lemma append_cons (c : ascii) (s t : string) :
  String c s ++ t = String c (s ++ t).
Proof. reflexivity. Qed.

Lemma append_empty (t : string) : "" ++ t = t.
Proof. reflexivity. Qed.

Lemma prefix_occurs (p s : string) :
  String.prefix p s = true <-> exists after, s = p ++ after.
Proof.
  revert s. induction p as [|c p IH]; intros s.
  - split; [intros _; exists s; reflexivity | destruct s; reflexivity].
  - destruct s as [|c' s]; simpl.
    + split; [discriminate | intros [after H]; discriminate H].
    + destruct (Ascii.ascii_dec c c') as [->|Hne].
      * rewrite IH. split; intros [after H]; exists after;
          rewrite append_cons in *; congruence.
      * split; [discriminate | intros [after H]; rewrite append_cons in H; congruence].
Qed.

(** [includes] finds the needle exactly when it occurs somewhere. *)
Lemma includes_occurs (s needle : string) :
  JsString.includes s needle = true <-> occursIn needle s.
Proof.
  unfold occursIn. induction s as [|c s IH]; cbn [JsString.includes].
  - rewrite orb_false_r, prefix_occurs. split.
    + intros [after H]. exists "", after. exact H.
    + intros ([|b before] & after & H); [exists after; exact H |].
      rewrite append_cons in H. discriminate H.
  - rewrite orb_true_iff, prefix_occurs, IH. split.
    + intros [[after H]|(before & after & H)].
      * exists "", after. exact H.
      * exists (String c before), after. rewrite append_cons. now rewrite H.
    + intros ([|b before] & after & H).
      * left. exists after. exact H.
      * right. exists before, after. rewrite append_cons in H. congruence.
Qed.

(** The callback of the scan, in words: the identifier is 1008, or there is
    a name and "energy" occurs in it once it is lowered. *)
Lemma isEnergy_spec (n : Nutrient) :
  isEnergy n = true <->
  nutrientId n = 1008%Z \/
  exists name, nutrientName n = Some name /\
               occursIn "energy" (JsString.toLowerCase name).
Proof.
  unfold isEnergy. rewrite orb_true_iff, Z.eqb_eq.
  destruct (nutrientName n) as [name|].
  - rewrite andb_true_iff, includes_occurs. split.
    + intros [H|[_ H]]; [left; exact H | right; eauto].
    + intros [H|(name' & [= <-] & H)]; [left; exact H | right].
      split; [|exact H].
      destruct name; [|reflexivity].
      destruct H as ([|b before] & after & H);
        [rewrite append_empty in H | rewrite append_cons in H];
        simpl in H; discriminate H.
  - split; intros [H|H]; auto; [discriminate H | destruct H as (? & H & _); discriminate H].
Qed.

Lemma find_energy_first nutrients e :
  firstEnergy nutrients e -> find_energy nutrients = inr (Some e).
Proof.
  intros (before & after & -> & Hbefore & He).
  induction Hbefore as [|x before (n & -> & Hn) _ IH]; simpl.
  - now rewrite He.
  - now rewrite Hn.
Qed.

Lemma find_energy_found nutrients e :
  find_energy nutrients = inr (Some e) -> firstEnergy nutrients e.
Proof.
  induction nutrients as [|[n|] rest IH]; simpl; try discriminate.
  destruct (isEnergy n) eqn:Hn.
  - intros [= <-]. exists [], rest. repeat split; auto.
  - intros H. destruct (IH H) as (before & after & -> & Hb & He).
    exists (Some n :: before), after. repeat split; auto.
    constructor; [exists n; auto | exact Hb].
Qed.

Lemma find_energy_nothing nutrients :
  (forall n, In (Some n) nutrients -> isEnergy n = false) ->
  find_energy nutrients = inr None \/ find_energy nutrients = inl TypeError.
Proof.
  induction nutrients as [|[n|] rest IH]; simpl; intros Hall; auto.
  rewrite (Hall n) by now left. apply IH. intros m Hm. apply Hall. now right.
Qed.

(** C8, as it stands, fails for a value of zero: the entry qualifies, its
    value is 0, and the extractor returns nothing. *)
Lemma extractCalories_zero_value_dropped :
  foodNutrients Samples.water = Some [Some (Samples.energy 0)] /\
  firstEnergy [Some (Samples.energy 0)] (Samples.energy 0) /\
  value (Samples.energy 0) = Some 0%Q /\
  extractCalories Samples.water <> value (Samples.energy 0) /\
  extractCalories Samples.water = None.
Proof.
  repeat split; try discriminate.
  exists [], []. repeat split; auto.
Qed.

(** C8, amended.  [extractCalories] scans the nutrient list in index order,
    in one pass, for the first entry whose identifier is 1008 or whose name
    contains "energy" in any letter case, and returns that entry's value
    when the value is there and is not zero.  It returns nothing when the
    list is absent, is empty or holds no such entry, and whatever the scan
    throws ends as nothing too. *)
Theorem extractCalories_first_energy (food : Food) :
  (forall nutrients e v,
     foodNutrients food = Some nutrients ->
     firstEnergy nutrients e ->
     value e = Some v -> ~ (v == 0)%Q ->
     extractCalories food = Some v) /\
  (forall n, isEnergy n = true <->
     nutrientId n = 1008%Z \/
     exists name, nutrientName n = Some name /\
                  occursIn "energy" (JsString.toLowerCase name)) /\
  (foodNutrients food = None -> extractCalories food = None) /\
  (foodNutrients food = Some [] -> extractCalories food = None) /\
  (forall nutrients,
     foodNutrients food = Some nutrients ->
     (forall n, In (Some n) nutrients -> isEnergy n = false) ->
     extractCalories food = None) /\
  (forall e, extractCalories_try food = inl e -> extractCalories food = None).
Proof.
  unfold extractCalories, extractCalories_try. repeat split.
  - intros nutrients e v -> He Hv Hnz.
    rewrite (find_energy_first _ _ He), Hv.
    unfold JsNumber.truthy, JsNumber.parseFloat.
    destruct (Qeq_bool v 0) eqn:Hz; [|reflexivity].
    apply Qeq_bool_iff in Hz. contradiction.
  - apply isEnergy_spec.
  - apply isEnergy_spec.
  - intros ->. reflexivity.
  - intros ->. reflexivity.
  - intros nutrients -> Hall.
    destruct (find_energy_nothing _ Hall) as [-> | ->]; reflexivity.
  - intros e ->. reflexivity.
Qed.

Lemma extractCalories_first_energy_witness :
  extractCalories Samples.biryani = Some 280%Q /\
  extractCalories Samples.tofu = None.
Proof.
  split.
  - apply (proj1 (extractCalories_first_energy Samples.biryani)
             [Some Samples.protein; Some (Samples.energy 280)] (Samples.energy 280) 280%Q).
    + reflexivity.
    + exists [Some Samples.protein], []. repeat split.
      constructor; [|constructor]. exists Samples.protein. split; reflexivity.
    + reflexivity.
    + discriminate.
  - apply (proj1 (proj2 (proj2 (proj2 (proj2 (extractCalories_first_energy Samples.tofu)))))
             [Some Samples.protein; Some Samples.fat]).
    + reflexivity.
    + intros n [[= <-]|[[= <-]|[]]]; reflexivity.
Defined.

(** C10.  When the first qualifying entry of the matched food has the value
    0, or no value at all, [extractCalories] returns nothing, the same in
    both cases, and the lookup that matched this food fails with the message
    that the calorie information is not available instead of answering 0. *)
Theorem extractCalories_zero_is_absent
    apiKey baseURL fmul Fuse_search env dish s w l w' best nutrients e :
  foodNutrients best = Some nutrients ->
  firstEnergy nutrients e ->
  (value e = None \/ exists v, value e = Some v /\ (v == 0)%Q) ->
  extractCalories best = None /\
  (searchFoods apiKey baseURL env dish 25 w = (inr l, w') ->
   findBestMatch Fuse_search (Some l) dish = inr (Some best) ->
   getCalories apiKey baseURL fmul Fuse_search env dish s w =
     (inl (Error (failureMessage CaloriesUnavailable dish)), w')).
Proof.
  intros Hn He Hv.
  assert (Hnone : extractCalories best = None).
  { unfold extractCalories, extractCalories_try.
    rewrite Hn, (find_energy_first _ _ He).
    destruct Hv as [-> | (v & -> & Hz)]; [reflexivity|].
    unfold JsNumber.truthy. apply Qeq_bool_iff in Hz. now rewrite Hz. }
  split; [exact Hnone|].
  intros Hs Hb. rewrite (getCalories_after_search _ _ _ _ _ _ s _ _ _ Hs).
  destruct l as [|a l]; [discriminate Hb|].
  now rewrite Hb, Hnone.
Qed.

Lemma extractCalories_zero_is_absent_witness :
  extractCalories Samples.water = None /\
  getCalories Samples.key Samples.base Binary64.mul Samples.fuse_nothing
    (Samples.answering 0 [Some Samples.water]) "water" 1 Samples.fresh =
  (inl (Error (failureMessage CaloriesUnavailable "water")),
   snd (searchFoods Samples.key Samples.base
          (Samples.answering 0 [Some Samples.water]) "water" 25 Samples.fresh)).
Proof.
  destruct (extractCalories_zero_is_absent Samples.key Samples.base Binary64.mul Samples.fuse_nothing
              (Samples.answering 0 [Some Samples.water]) "water" 1 Samples.fresh
              [Some Samples.water]
              (snd (searchFoods Samples.key Samples.base
                      (Samples.answering 0 [Some Samples.water]) "water" 25 Samples.fresh))
              Samples.water [Some (Samples.energy 0)] (Samples.energy 0))
    as [Hnone Hfail].
  - reflexivity.
  - exists [], []. repeat split; auto.
  - right. exists 0%Q. split; reflexivity.
  - split; [exact Hnone|]. apply Hfail; [vm_compute; reflexivity | reflexivity].
Defined.

(** *** The source client *)

Lemma sourceError_inj k k' : sourceError k = sourceError k' -> k = k'.
Proof. intros [= H]. exact (failureMessage_kind _ _ _ _ H). Qed.

(** Splits a statement about the outcome of the search into its cases and
    closes those that compare different outcomes. *)
Ltac classify :=
  repeat match goal with
         | |- _ /\ _ => split
         | |- _ <-> _ => split
         | |- forall _, _ => intro
         | H : _ /\ _ |- _ => destruct H
         | H : _ \/ _ |- _ => destruct H
         | H : exists _, _ |- _ => destruct H
         | H : inl _ = inl _ |- _ => injection H as H
         | H : sourceError _ = sourceError _ |- _ => apply sourceError_inj in H
         end;
  subst; try congruence; try discriminate; auto.

(** C5, as it stands, fails for a malformed answer: a body that is not
    JSON is not a failure for [searchFoods].  Nothing throws, the text has
    no [foods], and the empty list is returned and stored in the cache. *)
Lemma searchFoods_malformed_not_transient :
  let run := searchFoods Samples.key Samples.base (Samples.garbled 0) "rice" 25
               Samples.fresh in
  fst run = inr [] /\
  fst run <> inl (sourceError Transient) /\
  NodeCache.get 120 (cacheKey "rice" 25) (cacheStore (snd run)) = Some [].
Proof. split; [reflexivity|]. split; [discriminate|]. vm_compute. reflexivity. Qed.

(** C5, amended.  [searchFoods] fails as rate limited exactly when the
    source was asked and answered with status 429, as unauthorized exactly
    when it answered with status 403, and as a transient failure exactly
    when the request or the reading of the answer throws in another way:
    another status, no answer at all (network, timeout), or a body that is
    the JSON value [null].  It throws nothing else.  Any other answer is a
    success: one that carries no records, or no [foods] at all as a
    malformed body does, gives the empty list, which is not an error. *)
Theorem searchFoods_classifies apiKey baseURL env q p w :
  let miss := NodeCache.get (now env) (cacheKey q p) (cacheStore w) = None in
  let outcome := axios_get env (searchRequest apiKey baseURL q p) in
  let result := fst (searchFoods apiKey baseURL env q p w) in
  (result = inl (sourceError RateLimited) <->
     miss /\ outcome = Rejected (Some 429%Z)) /\
  (result = inl (sourceError Unauthorized) <->
     miss /\ outcome = Rejected (Some 403%Z)) /\
  (result = inl (sourceError Transient) <->
     miss /\ (outcome = Resolved None \/
              exists status, outcome = Rejected status /\
                             status <> Some 429%Z /\ status <> Some 403%Z)) /\
  (forall e, result = inl e ->
     e = sourceError RateLimited \/ e = sourceError Unauthorized \/
     e = sourceError Transient) /\
  (forall d, miss -> outcome = Resolved (Some d) ->
     foods d = Some [] \/ foods d = None -> result = inr []).
Proof.
  intros miss outcome result. subst miss outcome result.
  destruct (NodeCache.get (now env) (cacheKey q p) (cacheStore w)) as [c|] eqn:Hget.
  - rewrite (searchFoods_hit _ _ _ _ _ _ _ Hget). cbn [fst]. classify.
  - rewrite (searchFoods_miss _ _ _ _ _ _ Hget). cbn zeta.
    destruct (axios_get env _) as [[d|]|status] eqn:Hout; cbn [fst].
    + classify;
        match goal with H : Resolved _ = Resolved _ |- _ => injection H as <- end;
        unfold foodsOrEmpty;
        match goal with H : foods d = _ |- _ => now rewrite H end.
    + change (thrownFor None) with (sourceError Transient). classify.
    + destruct (thrownFor_cases status) as [[-> ->]|[[-> ->]|[-> [H1 H2]]]];
        fold (sourceError RateLimited); fold (sourceError Unauthorized);
        fold (sourceError Transient); classify.
      right. exists status. auto.
Qed.

Lemma searchFoods_classifies_witness :
  fst (searchFoods Samples.key Samples.base (Samples.refusing 0 429) "rice" 25
         Samples.fresh) = inl (sourceError RateLimited) /\
  fst (searchFoods Samples.key Samples.base (Samples.refusing 0 403) "rice" 25
         Samples.fresh) = inl (sourceError Unauthorized) /\
  fst (searchFoods Samples.key Samples.base (Samples.unreachable 0) "rice" 25
         Samples.fresh) = inl (sourceError Transient) /\
  fst (searchFoods Samples.key Samples.base (Samples.answering 0 []) "xyznonfood" 25
         Samples.fresh) = inr [].
Proof.
  split; [|split; [|split]].
  - apply (proj1 (searchFoods_classifies Samples.key Samples.base
                    (Samples.refusing 0 429) "rice" 25 Samples.fresh)).
    split; reflexivity.
  - apply (proj1 (proj2 (searchFoods_classifies Samples.key Samples.base
                    (Samples.refusing 0 403) "rice" 25 Samples.fresh))).
    split; reflexivity.
  - apply (proj1 (proj2 (proj2 (searchFoods_classifies Samples.key Samples.base
                    (Samples.unreachable 0) "rice" 25 Samples.fresh)))).
    split; [reflexivity|]. right. exists None. repeat split; discriminate.
  - apply (proj2 (proj2 (proj2 (proj2 (searchFoods_classifies Samples.key Samples.base
                    (Samples.answering 0 []) "xyznonfood" 25 Samples.fresh))))
             {| foods := Some [] |}); auto; reflexivity.
Defined.

(** *** The orchestrator *)

(** C6.  With the outcome of the search in hand: an error of the source
    client leaves [getCalories] as the very same error; an empty list of
    candidates fails as not found; a matched candidate without an
    extractable energy value fails as calories unavailable; otherwise the
    result carries the constant source label and the description and the
    identifier of the matched candidate.  The six failures have different
    messages, whatever the dishes they name. *)
Theorem getCalories_outcomes apiKey baseURL fmul Fuse_search env dish s w r w' :
  searchFoods apiKey baseURL env dish 25 w = (r, w') ->
  (forall e, r = inl e ->
     getCalories apiKey baseURL fmul Fuse_search env dish s w = (inl e, w')) /\
  (r = inr [] ->
     getCalories apiKey baseURL fmul Fuse_search env dish s w =
       (inl (Error (failureMessage NotFound dish)), w')) /\
  (forall l best,
     r = inr l -> findBestMatch Fuse_search (Some l) dish = inr (Some best) ->
     extractCalories best = None ->
     getCalories apiKey baseURL fmul Fuse_search env dish s w =
       (inl (Error (failureMessage CaloriesUnavailable dish)), w')) /\
  (forall l best c,
     r = inr l -> findBestMatch Fuse_search (Some l) dish = inr (Some best) ->
     extractCalories best = Some c ->
     exists res,
       getCalories apiKey baseURL fmul Fuse_search env dish s w = (inr res, w') /\
       source res = "USDA FoodData Central" /\
       matched_food res = description best /\
       food_id res = fdcId best /\
       dish_name res = dish /\ servings res = s) /\
  (forall k k' d d', failureMessage k d = failureMessage k' d' -> k = k').
Proof.
  intros Hs. rewrite (getCalories_after_search _ _ _ Fuse_search _ _ s _ _ _ Hs).
  split; [|split; [|split; [|split]]].
  - intros e ->. reflexivity.
  - intros ->. reflexivity.
  - intros l best -> Hb Hc.
    destruct l as [|a l]; [discriminate Hb|]. now rewrite Hb, Hc.
  - intros l best c -> Hb Hc.
    destruct l as [|a l]; [discriminate Hb|]. rewrite Hb, Hc.
    eexists. split; [reflexivity|]. repeat split.
  - apply failureMessage_kind.
Qed.

Lemma getCalories_outcomes_witness :
  getCalories Samples.key Samples.base Binary64.mul Samples.fuse_prefix
    (Samples.refusing 0 429) "tofu" 1 Samples.fresh =
  (inl (sourceError RateLimited),
   snd (searchFoods Samples.key Samples.base (Samples.refusing 0 429) "tofu" 25
          Samples.fresh)) /\
  exists res,
    getCalories Samples.key Samples.base Binary64.mul Samples.fuse_prefix
      (Samples.answering 0 [Some Samples.tofu; Some Samples.biryani]) "Chicken" 2
      Samples.fresh =
    (inr res,
     snd (searchFoods Samples.key Samples.base
            (Samples.answering 0 [Some Samples.tofu; Some Samples.biryani]) "Chicken" 25
            Samples.fresh)) /\
    source res = "USDA FoodData Central" /\
    matched_food res = "Chicken biryani, with rice" /\
    food_id res = 2341%Z /\
    dish_name res = "Chicken" /\ servings res = 2%Q.
Proof.
  split.
  - apply (proj1 (getCalories_outcomes Samples.key Samples.base Binary64.mul Samples.fuse_prefix
                    (Samples.refusing 0 429) "tofu" 1 Samples.fresh
                    (inl (sourceError RateLimited))
                    (snd (searchFoods Samples.key Samples.base (Samples.refusing 0 429)
                            "tofu" 25 Samples.fresh))
                    ltac:(vm_compute; reflexivity))).
    reflexivity.
  - apply (proj1 (proj2 (proj2 (proj2
             (getCalories_outcomes Samples.key Samples.base Binary64.mul Samples.fuse_prefix
                (Samples.answering 0 [Some Samples.tofu; Some Samples.biryani]) "Chicken" 2
                Samples.fresh
                (inr [Some Samples.tofu; Some Samples.biryani])
                (snd (searchFoods Samples.key Samples.base
                        (Samples.answering 0 [Some Samples.tofu; Some Samples.biryani])
                        "Chicken" 25 Samples.fresh))
                ltac:(vm_compute; reflexivity)))))
             [Some Samples.tofu; Some Samples.biryani] Samples.biryani 280%Q);
      reflexivity.
Defined.

(** *** The cache in front of the source *)

Lemma NodeCache_get_set (t0 t : Z) (key : string) (v : list (option Food))
    (store : gmap string CacheEntry) :
  (t - t0 <= NodeCache.ttl_ms)%Z ->
  NodeCache.get t key (NodeCache.set t0 key v store) = Some v.
Proof.
  intros Ht. unfold NodeCache.get, NodeCache.set.
  rewrite lookup_insert_eq. cbn [insertedAt entryValue].
  destruct (Z.ltb_spec NodeCache.ttl_ms (t - t0)); [lia | reflexivity].
Qed.

(** As long as the entry is live, every call is answered from the cache and
    the world does not change. *)
Lemma searchFoods_repeat_hits apiKey baseURL (calls : list Env) q p w v :
  Forall (fun e => NodeCache.get (now e) (cacheKey q p) (cacheStore w) = Some v) calls ->
  searchFoods_repeat apiKey baseURL calls q p w = (map (fun _ => inr v) calls, w).
Proof.
  induction 1 as [|e calls He _ IH]; [reflexivity|].
  cbn [searchFoods_repeat map].
  now rewrite (searchFoods_hit _ _ _ _ _ _ _ He), IH.
Qed.

(** C7.  When a search misses the cache and the source answers, the list of
    the answer, empty or not, is in the cache when [searchFoods] returns.
    Any number of further calls with the same query and page size, each made
    no later than 3600 seconds after the answer was stored, return that list
    and send nothing to the source, whatever the source would have said: of
    all these calls only the first one reached it. *)
Theorem searchFoods_served_from_cache apiKey baseURL env q p w d (later : list Env) :
  NodeCache.get (now env) (cacheKey q p) (cacheStore w) = None ->
  axios_get env (searchRequest apiKey baseURL q p) = Resolved (Some d) ->
  Forall (fun e => (now e - (now env + latency env) <= NodeCache.stdTTL * 1000)%Z) later ->
  let first := searchFoods apiKey baseURL env q p w in
  let rest := searchFoods_repeat apiKey baseURL later q p (snd first) in
  fst first = inr (foodsOrEmpty d) /\
  NodeCache.get (now env + latency env) (cacheKey q p) (cacheStore (snd first))
    = Some (foodsOrEmpty d) /\
  requests (snd first) = (requests w ++ [searchRequest apiKey baseURL q p])%list /\
  fst rest = map (fun _ => inr (foodsOrEmpty d)) later /\
  requests (snd rest) = requests (snd first).
Proof.
  intros Hmiss Hok Hlater first rest. subst rest first.
  rewrite (searchFoods_miss _ _ _ _ _ _ Hmiss). cbn zeta. rewrite Hok.
  cbn [fst snd stored sent cacheStore requests].
  split; [reflexivity|]. split; [apply NodeCache_get_set; unfold NodeCache.ttl_ms, NodeCache.stdTTL; lia|].
  split; [reflexivity|].
  rewrite (searchFoods_repeat_hits _ _ later q p _ (foodsOrEmpty d)).
  - split; reflexivity.
  - eapply Forall_impl; [exact Hlater|].
    intros e He. cbn [cacheStore]. now apply NodeCache_get_set.
Qed.

Lemma searchFoods_served_from_cache_witness :
  let later := [Samples.unreachable 1000; Samples.refusing 60000 429;
                Samples.answering 3600120 [Some Samples.tofu]] in
  let first := searchFoods Samples.key Samples.base (Samples.answering 0 [])
                 "xyznonfood" 25 Samples.fresh in
  let rest := searchFoods_repeat Samples.key Samples.base later "xyznonfood" 25
                (snd first) in
  fst first = inr [] /\
  NodeCache.get 120 (cacheKey "xyznonfood" 25) (cacheStore (snd first)) = Some [] /\
  requests (snd first) = [searchRequest Samples.key Samples.base "xyznonfood" 25] /\
  fst rest = [inr []; inr []; inr []] /\
  requests (snd rest) = requests (snd first).
Proof.
  apply (searchFoods_served_from_cache Samples.key Samples.base
           (Samples.answering 0 []) "xyznonfood" 25 Samples.fresh
           {| foods := Some [] |}
           [Samples.unreachable 1000; Samples.refusing 60000 429;
            Samples.answering 3600120 [Some Samples.tofu]]).
  - reflexivity.
  - reflexivity.
  - repeat constructor; vm_compute; discriminate.
Defined.

(** X4.  The same count from any state of the cache, an entry about to
    expire included: calls made one after the other within a window of 3600
    seconds, to a source that answers, all return a list and reach the
    source once at most. *)
Lemma searchFoods_repeat_at_most_once apiKey baseURL (calls : list Env) q p w t0 :
  inOrder t0 calls ->
  Forall answers calls ->
  Forall (fun e => (now e <= t0 + NodeCache.ttl_ms)%Z) calls ->
  let run := searchFoods_repeat apiKey baseURL calls q p w in
  Forall (fun r => exists l, r = inr l) (fst run) /\
  length (requests (snd run)) <= length (requests w) + 1.
Proof.
  revert w t0. induction calls as [|e rest IH]; intros w t0 Hord Hans Hwin; cbn zeta.
  - cbn. split; [constructor | lia].
  - destruct Hord as (Ht0 & Hlat & Hord).
    apply Forall_cons in Hans as [Hd Hans].
    apply Forall_cons in Hwin as [_ Hwin].
    cbn [searchFoods_repeat].
    destruct (NodeCache.get (now e) (cacheKey q p) (cacheStore w)) as [c|] eqn:Hget.
    + rewrite (searchFoods_hit _ _ _ _ _ _ _ Hget).
      specialize (IH w (now e + latency e)%Z Hord Hans).
      destruct (searchFoods_repeat apiKey baseURL rest q p w) as [rs w2].
      cbn [fst snd] in *. destruct IH as [IH1 IH2].
      * eapply Forall_impl; [exact Hwin|]. intros e' He'. cbn beta in He'. lia.
      * split; [constructor; eauto | exact IH2].
    + rewrite (searchFoods_miss _ _ _ _ _ _ Hget). cbn zeta.
      destruct (Hd (searchRequest apiKey baseURL q p)) as [d ->].
      rewrite (searchFoods_repeat_hits _ _ rest q p _ (foodsOrEmpty d)).
      * cbn [fst snd stored sent requests]. split.
        -- constructor; [eauto|]. apply Forall_forall. intros r Hr.
           apply list_elem_of_In, in_map_iff in Hr as (? & <- & _). eauto.
        -- rewrite length_app. cbn. lia.
      * eapply Forall_impl; [exact Hwin|]. intros e' He'. cbn beta in He'.
        cbn [stored cacheStore]. apply NodeCache_get_set. lia.
Qed.

(** *** The cache key *)

Lemma freeOf_append_cons c (a b : string) : ~ freeOf c (a ++ String c b).
Proof.
  induction a as [|x a IH]; [rewrite append_empty | rewrite append_cons];
    cbn [freeOf]; intros [H1 H2]; auto.
Qed.

Lemma pretty_N_go_freeOf (x : N) (s : string) :
  freeOf "_" s -> freeOf "_" (pretty_N_go x s).
Proof.
  revert s. induction (N.lt_wf_0 x) as [x _ IH]; intros s Hs.
  destruct (decide (x = 0%N)) as [->|Hx]; [now rewrite pretty_N_go_0|].
  rewrite pretty_N_go_step by lia.
  apply IH; [apply N.div_lt; lia|].
  split; [|exact Hs].
  unfold pretty_N_char. repeat case_match; discriminate.
Qed.

(** The decimal form of an integer has no underscore. *)
Lemma toString_freeOf (n : Z) : freeOf "_" (JsNumber.toString n).
Proof.
  assert (HN : forall x : N, freeOf "_" (pretty x)).
  { intros x. unfold pretty, pretty_N. case_decide.
    - cbn. split; [discriminate | exact I].
    - apply pretty_N_go_freeOf. exact I. }
  unfold JsNumber.toString, pretty, pretty_Z. destruct n as [|x|x].
  - cbn. split; [discriminate | exact I].
  - apply HN.
  - rewrite append_cons, append_empty. split; [discriminate | apply HN].
Qed.

(** The last underscore of a key separates the query from the page size. *)
Lemma split_at_last_underscore (s1 s2 d1 d2 : string) :
  freeOf "_" d1 -> freeOf "_" d2 ->
  s1 ++ "_" ++ d1 = s2 ++ "_" ++ d2 -> s1 = s2 /\ d1 = d2.
Proof.
  intros H1 H2. revert s2.
  induction s1 as [|a s1 IH]; intros [|b s2];
    rewrite ?append_empty, ?append_cons, ?append_empty.
  - intros [= ->]. auto.
  - intros [= <- ->]. now apply freeOf_append_cons in H1.
  - intros [= -> <-]. now apply freeOf_append_cons in H2.
  - intros [= -> H]. apply IH in H as [-> ->]. auto.
Qed.

(** C3, as it stands, fails: a query with a leading blank and the same
    query without it are one text once trimmed, and yet have two keys; after
    the first was answered and stored, the second misses the cache and goes
    to the source again, with the same request. *)
Lemma cacheKey_not_trimmed :
  JsString.trim " apple" = JsString.trim "apple" /\
  cacheKey " apple" 25 <> cacheKey "apple" 25 /\
  let w1 := snd (searchFoods Samples.key Samples.base
                   (Samples.answering 0 [Some Samples.tofu]) " apple" 25 Samples.fresh) in
  let w2 := snd (searchFoods Samples.key Samples.base
                   (Samples.answering 1000 [Some Samples.tofu]) "apple" 25 w1) in
  NodeCache.get 1000 (cacheKey " apple" 25) (cacheStore w1) = Some [Some Samples.tofu] /\
  NodeCache.get 1000 (cacheKey "apple" 25) (cacheStore w1) = None /\
  requests w2 = [searchRequest Samples.key Samples.base "apple" 25;
                 searchRequest Samples.key Samples.base "apple" 25].
Proof.
  split; [reflexivity|]. split; [discriminate|].
  vm_compute. repeat split.
Qed.

(** C3, amended.  The cache key is built from the query text as it was
    passed, letter case and surrounding blanks kept, and from the page size:
    two calls have the same key exactly when they have the same text and the
    same page size.  The trimmed text is what goes to the source. *)
Theorem cacheKey_of_raw_query apiKey baseURL (q q' : string) (p p' : Z) :
  cacheKey q p = "search_" ++ q ++ "_" ++ JsNumber.toString p /\
  (cacheKey q p = cacheKey q' p' <-> q = q' /\ p = p') /\
  query (searchRequest apiKey baseURL q p) = JsString.trim q /\
  pageSize (searchRequest apiKey baseURL q p) = p.
Proof.
  split; [reflexivity|]. split; [|split; reflexivity].
  split; [|intros [-> ->]; reflexivity].
  unfold cacheKey. rewrite !append_cons, !append_empty.
  intros [= H].
  apply split_at_last_underscore in H as [-> H]; auto using toString_freeOf.
  split; [reflexivity|]. now apply (inj pretty).
Qed.

(** ** Further properties *)

(** *** The route handler *)

Lemma append_assoc (a b c : string) : (a ++ b) ++ c = a ++ b ++ c.
Proof.
  induction a as [|x a IH]; [reflexivity|].
  rewrite !append_cons. now rewrite IH.
Qed.

Lemma occursIn_left (n a b : string) : occursIn n a -> occursIn n (a ++ b).
Proof.
  intros (before & after & ->). exists before, (after ++ b).
  now rewrite !append_assoc.
Qed.

Lemma occursIn_right (n a b : string) : occursIn n b -> occursIn n (a ++ b).
Proof.
  intros (before & after & ->). exists (a ++ before), after.
  now rewrite !append_assoc.
Qed.

(** A needle without the character [q] that starts before a [q] ends
    before it. *)
Lemma starts_before (q : ascii) (n post a b : string) :
  freeOf q n -> n ++ post = a ++ String q b -> exists post', a = n ++ post'.
Proof.
  revert a. induction n as [|c n IH]; intros a Hn H.
  - exists a. reflexivity.
  - destruct Hn as [Hc Hn]. destruct a as [|x a].
    + rewrite append_empty, append_cons in H. congruence.
    + rewrite !append_cons in H. injection H as -> H.
      destruct (IH a Hn H) as [post' ->]. exists post'. reflexivity.
Qed.

(** A needle without the character [q] does not straddle a [q]. *)
Lemma occursIn_split (q : ascii) (n a b : string) :
  freeOf q n -> n <> "" ->
  occursIn n (a ++ String q b) -> occursIn n a \/ occursIn n b.
Proof.
  intros Hn Hne (before & after & H). revert before H.
  induction a as [|x a IH]; intros before H.
  - rewrite append_empty in H. destruct before as [|c before].
    + rewrite append_empty in H. destruct n as [|c n]; [congruence|].
      rewrite append_cons in H. destruct Hn as [Hc _]. congruence.
    + rewrite append_cons in H. injection H as _ ->.
      right. exists before, after. reflexivity.
  - destruct before as [|c before].
    + rewrite append_empty in H. symmetry in H.
      destruct (starts_before q n after (String x a) b Hn H) as [post' ->].
      left. exists "", post'. reflexivity.
    + rewrite !append_cons in H. injection H as -> H.
      destruct (IH before H) as [(b1 & a1 & ->)|Hb].
      * left. exists (String c b1), a1. reflexivity.
      * right. exact Hb.
Qed.

(** In a message that quotes the dish, a needle without a double quote that
    is in neither of the fixed parts is found exactly when the dish has
    it. *)
Lemma includes_quoted (head dish tail n : string) :
  freeOf "034" n -> n <> "" ->
  JsString.includes head n = false ->
  JsString.includes tail n = false ->
  JsString.includes (head ++ dquote ++ dish ++ dquote ++ tail) n
  = JsString.includes dish n.
Proof.
  intros Hn Hne Hhead Htail.
  apply eq_true_iff_eq. rewrite !includes_occurs. split.
  - intros H. apply (occursIn_split "034") in H as [H|H]; auto.
    + apply includes_occurs in H. congruence.
    + apply (occursIn_split "034") in H as [H|H]; auto.
      apply includes_occurs in H. congruence.
  - intros H. apply occursIn_right, occursIn_right, occursIn_left. exact H.
Qed.

Section RouteFacts.

Variables apiKey baseURL : string.
Variable fmul : Q -> Q -> option Q.
Variable Fuse_search : list (option Food) -> string -> list FuseResult.
Variable libraryMessage : exn -> string.

Lemma getCaloriesHandler_after_lookup env dish s w r w' :
  getCalories apiKey baseURL fmul Fuse_search env dish s w = (r, w') ->
  getCaloriesHandler apiKey baseURL fmul Fuse_search libraryMessage env dish s w =
  match r with
  | inr res => (inr {| Http.status := 200; Http.body := Http.Data res |}, w')
  | inl e => getCaloriesHandler_catch libraryMessage dish e w'
  end.
Proof.
  intros H. unfold getCaloriesHandler, tryCatch, bind. rewrite H.
  destruct r; reflexivity.
Qed.

(** The status the [catch] block answers with, for a message. *)
Lemma getCaloriesHandler_catch_status dish m w :
  exists resp,
    getCaloriesHandler_catch libraryMessage dish (Error m) w = (inr resp, w) /\
    Http.status resp =
      (if JsString.includes m "No nutrition data found" then 404
       else if JsString.includes m "rate limit" then 429 else 500)%Z.
Proof.
  unfold getCaloriesHandler_catch, error_message.
  destruct (JsString.includes m "No nutrition data found");
    [|destruct (JsString.includes m "rate limit")];
    eexists; split; reflexivity.
Qed.

(** Whatever is caught, the [catch] block answers, with one of three
    statuses. *)
Lemma getCaloriesHandler_catch_any dish e w :
  exists resp,
    getCaloriesHandler_catch libraryMessage dish e w = (inr resp, w) /\
    (Http.status resp = 200 \/ Http.status resp = 404 \/
     Http.status resp = 429 \/ Http.status resp = 500)%Z.
Proof.
  unfold getCaloriesHandler_catch.
  destruct (JsString.includes _ "No nutrition data found");
    [|destruct (JsString.includes _ "rate limit")];
    eexists; (split; [reflexivity|]); cbn; auto.
Qed.

Lemma includes_notFound dish :
  JsString.includes (failureMessage NotFound dish) "No nutrition data found" = true.
Proof.
  apply includes_occurs. exists "", (" for " ++ dquote ++ dish ++ dquote). reflexivity.
Qed.

Lemma includes_caloriesUnavailable dish needle :
  needle = "No nutrition data found" \/ needle = "rate limit" ->
  JsString.includes (failureMessage CaloriesUnavailable dish) needle
  = JsString.includes dish needle.
Proof.
  intros Hn.
  change (failureMessage CaloriesUnavailable dish)
    with ("Calorie information not available for " ++ dquote ++ dish ++ dquote ++ "").
  destruct Hn as [-> | ->];
    (apply includes_quoted; try reflexivity; [|discriminate]);
    repeat split; discriminate.
Qed.

End RouteFacts.

(** X11.  The handler always answers, and the status follows the outcome of
    the search: 429 when the source limited the rate, 500 for the other
    failures of the source, 404 with the dish quoted in the message when
    the source knows no such food, 200 with the calorie data when the
    lookup succeeds.  It leaves the world as the search left it. *)
Theorem getCaloriesHandler_status_table
    apiKey baseURL fmul Fuse_search libraryMessage env dish s w r w' :
  searchFoods apiKey baseURL env dish 25 w = (r, w') ->
  exists resp,
    getCaloriesHandler apiKey baseURL fmul Fuse_search libraryMessage env dish s w
      = (inr resp, w') /\
    (Http.status resp = 200 \/ Http.status resp = 404 \/
     Http.status resp = 429 \/ Http.status resp = 500)%Z /\
    match r with
    | inl e =>
        (e = sourceError RateLimited /\ Http.status resp = 429%Z) \/
        ((e = sourceError Unauthorized \/ e = sourceError Transient) /\
         Http.status resp = 500%Z)
    | inr [] =>
        Http.status resp = 404%Z /\
        Http.body resp =
          Http.Failure "Dish not found"
            ("We couldn't find nutrition information for " ++ dquote ++ dish
             ++ dquote ++ ". Try using a more specific or common dish name.")
    | inr l =>
        forall best c,
          findBestMatch Fuse_search (Some l) dish = inr (Some best) ->
          extractCalories best = Some c ->
          Http.status resp = 200%Z /\
          exists res,
            Http.body resp = Http.Data res /\
            getCalories apiKey baseURL fmul Fuse_search env dish s w = (inr res, w')
    end.
Proof.
  intros Hs.
  pose proof (getCalories_after_search apiKey baseURL fmul Fuse_search env dish s w r w' Hs) as Hg.
  rewrite (getCaloriesHandler_after_lookup _ _ _ _ libraryMessage _ _ _ _ _ _ Hg).
  destruct r as [e|[|a l]].
  - apply searchFoods_throws in Hs as [st ->].
    destruct (thrownFor_cases st) as [[-> _]|[[-> _]|[-> _]]];
      eexists; (split; [reflexivity|]); cbn; split; auto 10.
  - destruct (getCaloriesHandler_catch_status libraryMessage dish
                (failureMessage NotFound dish) w') as (resp & Hr & Hst).
    rewrite includes_notFound in Hst.
    unfold getCaloriesHandler_catch, error_message in *.
    rewrite includes_notFound in *. injection Hr as <-.
    eexists; split; [reflexivity|]. cbn. auto.
  - destruct (findBestMatch Fuse_search (Some (a :: l)) dish) as [e|[best|]] eqn:Hb.
    + destruct (getCaloriesHandler_catch_any libraryMessage dish e w')
        as (resp & -> & Hst).
      exists resp. split; [reflexivity|]. split; [exact Hst|]. discriminate.
    + destruct (extractCalories best) as [c|] eqn:Hc.
      * eexists; split; [reflexivity|]. cbn [Http.status Http.body]. split; [auto|].
        intros best' c' [= <-] Hc'. split; [reflexivity|].
        eexists; split; [reflexivity|]. exact Hg.
      * destruct (getCaloriesHandler_catch_any libraryMessage dish
                    (Error (failureMessage CaloriesUnavailable dish)) w')
          as (resp & -> & Hst).
        exists resp. split; [reflexivity|]. split; [exact Hst|].
        intros best' c' [= <-]. congruence.
    + destruct (getCaloriesHandler_catch_any libraryMessage dish
                  (Error (failureMessage NoMatch dish)) w') as (resp & -> & Hst).
      exists resp. split; [reflexivity|]. split; [exact Hst|]. discriminate.
Qed.

Lemma getCaloriesHandler_status_table_witness :
  exists resp,
    getCaloriesHandler Samples.key Samples.base Binary64.mul Samples.fuse_nothing (fun _ => "")
      (Samples.refusing 0 429) "rice" 1 Samples.fresh
    = (inr resp,
       snd (searchFoods Samples.key Samples.base (Samples.refusing 0 429) "rice" 25
              Samples.fresh)) /\
    Http.status resp = 429%Z.
Proof.
  destruct (getCaloriesHandler_status_table Samples.key Samples.base Binary64.mul
              Samples.fuse_nothing (fun _ => "") (Samples.refusing 0 429) "rice" 1
              Samples.fresh (inl (sourceError RateLimited))
              (snd (searchFoods Samples.key Samples.base (Samples.refusing 0 429)
                      "rice" 25 Samples.fresh))
              ltac:(vm_compute; reflexivity))
    as (resp & Hrun & _ & [[_ Hst]|[[H|H] _]]).
  - exists resp. split; assumption.
  - discriminate H.
  - discriminate H.
Defined.

(** X12.  When the matched food has no usable energy value, the status
    depends on the dish asked for: the handler tells the failures apart by
    looking for two phrases in the message, and the message quotes the dish.
    A dish whose name has "No nutrition data found" in it is answered 404,
    one with "rate limit" in it is answered 429 though the source set no
    limit, and every other dish is answered 500. *)
Theorem getCaloriesHandler_unavailable_status
    apiKey baseURL fmul Fuse_search libraryMessage env dish s w l w' best :
  searchFoods apiKey baseURL env dish 25 w = (inr l, w') ->
  findBestMatch Fuse_search (Some l) dish = inr (Some best) ->
  extractCalories best = None ->
  exists resp,
    getCaloriesHandler apiKey baseURL fmul Fuse_search libraryMessage env dish s w
      = (inr resp, w') /\
    Http.status resp =
      (if JsString.includes dish "No nutrition data found" then 404
       else if JsString.includes dish "rate limit" then 429 else 500)%Z.
Proof.
  intros Hs Hb Hc.
  pose proof (getCalories_after_search apiKey baseURL fmul Fuse_search env dish s w _ w' Hs) as Hg.
  destruct l as [|a l]; [discriminate Hb|]. rewrite Hb, Hc in Hg.
  rewrite (getCaloriesHandler_after_lookup _ _ _ _ libraryMessage _ _ _ _ _ _ Hg).
  destruct (getCaloriesHandler_catch_status libraryMessage dish
              (failureMessage CaloriesUnavailable dish) w') as (resp & -> & Hst).
  exists resp. split; [reflexivity|].
  rewrite !includes_caloriesUnavailable in Hst by auto. exact Hst.
Qed.

Lemma getCaloriesHandler_unavailable_status_witness :
  exists resp,
    getCaloriesHandler Samples.key Samples.base Binary64.mul Samples.fuse_nothing (fun _ => "")
      (Samples.answering 0 [Some Samples.water]) "rate limit water" 1 Samples.fresh
    = (inr resp,
       snd (searchFoods Samples.key Samples.base (Samples.answering 0 [Some Samples.water])
              "rate limit water" 25 Samples.fresh)) /\
    Http.status resp = 429%Z.
Proof.
  apply (getCaloriesHandler_unavailable_status Samples.key Samples.base Binary64.mul
           Samples.fuse_nothing (fun _ => "") (Samples.answering 0 [Some Samples.water])
           "rate limit water" 1 Samples.fresh [Some Samples.water]
           (snd (searchFoods Samples.key Samples.base
                   (Samples.answering 0 [Some Samples.water]) "rate limit water" 25
                   Samples.fresh))
           Samples.water);
    [vm_compute; reflexivity | reflexivity | reflexivity].
Defined.

(** *** More on the search and its cache *)

Lemma cacheKey_inj (q q' : string) (p p' : Z) :
  cacheKey q p = cacheKey q' p' -> q = q' /\ p = p'.
Proof.
  unfold cacheKey. rewrite !append_cons, !append_empty.
  intros [= H].
  apply split_at_last_underscore in H as [-> H]; auto using toString_freeOf.
  split; [reflexivity|]. now apply (inj pretty).
Qed.

(** An entry that is absent or stale stays so as time passes. *)
Lemma NodeCache_get_none_later (t t' : Z) (key : string)
    (store : gmap string CacheEntry) :
  (t <= t')%Z -> NodeCache.get t key store = None -> NodeCache.get t' key store = None.
Proof.
  unfold NodeCache.get. intros Ht. destruct (store !! key) as [e|]; [|reflexivity].
  destruct (Z.ltb_spec NodeCache.ttl_ms (t - insertedAt e)); [|discriminate].
  intros _. destruct (Z.ltb_spec NodeCache.ttl_ms (t' - insertedAt e)); [reflexivity|lia].
Qed.

(** On a miss one request goes out, however the source answers. *)
Lemma searchFoods_miss_requests apiKey baseURL env q p w :
  NodeCache.get (now env) (cacheKey q p) (cacheStore w) = None ->
  requests (snd (searchFoods apiKey baseURL env q p w))
  = (requests w ++ [searchRequest apiKey baseURL q p])%list.
Proof.
  intros H. rewrite (searchFoods_miss _ _ _ _ _ _ H). cbn zeta.
  destruct (axios_get env _) as [[d|]|st]; reflexivity.
Qed.

(** What a call does to the store of the cache: nothing, or one entry
    written under its own key. *)
Lemma searchFoods_store apiKey baseURL env q p w :
  cacheStore (snd (searchFoods apiKey baseURL env q p w)) = cacheStore w \/
  exists l, cacheStore (snd (searchFoods apiKey baseURL env q p w))
            = NodeCache.set (now env + latency env) (cacheKey q p) l (cacheStore w).
Proof.
  destruct (NodeCache.get (now env) (cacheKey q p) (cacheStore w)) as [c|] eqn:Hget.
  - rewrite (searchFoods_hit _ _ _ _ _ _ _ Hget). now left.
  - rewrite (searchFoods_miss _ _ _ _ _ _ Hget). cbn zeta.
    destruct (axios_get env _) as [[d|]|st]; [right; eexists; reflexivity | now left..].
Qed.

(** X1.  A search that fails writes nothing to the cache and has sent one
    request; the same search made again later is not answered from the
    cache and sends the request once more. *)
Theorem searchFoods_failure_not_cached apiKey baseURL env q p w e w' env' :
  searchFoods apiKey baseURL env q p w = (inl e, w') ->
  (now env <= now env')%Z ->
  cacheStore w' = cacheStore w /\
  requests w' = (requests w ++ [searchRequest apiKey baseURL q p])%list /\
  requests (snd (searchFoods apiKey baseURL env' q p w'))
  = (requests w ++ [searchRequest apiKey baseURL q p;
                    searchRequest apiKey baseURL q p])%list.
Proof.
  intros Hrun Hlater.
  destruct (NodeCache.get (now env) (cacheKey q p) (cacheStore w)) as [c|] eqn:Hget.
  { rewrite (searchFoods_hit _ _ _ _ _ _ _ Hget) in Hrun. discriminate Hrun. }
  assert (Hw' : cacheStore w' = cacheStore w /\
                requests w' = (requests w ++ [searchRequest apiKey baseURL q p])%list).
  { rewrite (searchFoods_miss _ _ _ _ _ _ Hget) in Hrun. cbn zeta in Hrun.
    destruct (axios_get env _) as [[d|]|st]; [discriminate Hrun| |];
      injection Hrun as _ <-; split; reflexivity. }
  destruct Hw' as [Hstore Hreq]. split; [exact Hstore|]. split; [exact Hreq|].
  rewrite searchFoods_miss_requests.
  - rewrite Hreq, <- app_assoc. reflexivity.
  - rewrite Hstore. now apply (NodeCache_get_none_later (now env)).
Qed.

Lemma searchFoods_failure_not_cached_witness :
  let w' := snd (searchFoods Samples.key Samples.base (Samples.unreachable 0) "rice" 25
                   Samples.fresh) in
  cacheStore w' = cacheStore Samples.fresh /\
  requests w' = [searchRequest Samples.key Samples.base "rice" 25] /\
  requests (snd (searchFoods Samples.key Samples.base
                   (Samples.answering 20000 [Some Samples.tofu]) "rice" 25 w'))
  = [searchRequest Samples.key Samples.base "rice" 25;
     searchRequest Samples.key Samples.base "rice" 25].
Proof.
  apply (searchFoods_failure_not_cached Samples.key Samples.base
           (Samples.unreachable 0) "rice" 25 Samples.fresh
           (sourceError Transient)
           (snd (searchFoods Samples.key Samples.base (Samples.unreachable 0) "rice" 25
                   Samples.fresh))
           (Samples.answering 20000 [Some Samples.tofu])).
  - vm_compute; reflexivity.
  - vm_compute; discriminate.
Defined.

(** X2.  A search reads and writes the cache under its own key only: the
    entry of any other query, or of the same query with another page size,
    is found after the call exactly as before it, at any time. *)
Theorem searchFoods_other_entries_untouched apiKey baseURL env q p w q' p' t :
  q' <> q \/ p' <> p ->
  NodeCache.get t (cacheKey q' p')
    (cacheStore (snd (searchFoods apiKey baseURL env q p w)))
  = NodeCache.get t (cacheKey q' p') (cacheStore w).
Proof.
  intros Hne.
  assert (Hk : cacheKey q p <> cacheKey q' p').
  { intros H. apply cacheKey_inj in H as [-> ->]. destruct Hne; congruence. }
  destruct (searchFoods_store apiKey baseURL env q p w) as [-> | [l ->]];
    [reflexivity|].
  unfold NodeCache.get, NodeCache.set. now rewrite lookup_insert_ne.
Qed.

Lemma searchFoods_other_entries_untouched_witness :
  let w1 := snd (searchFoods Samples.key Samples.base
                   (Samples.answering 0 [Some Samples.tofu]) "tofu" 25 Samples.fresh) in
  NodeCache.get 5000 (cacheKey "tofu" 25)
    (cacheStore (snd (searchFoods Samples.key Samples.base
                        (Samples.answering 1000 [Some Samples.water]) "tofu " 25 w1)))
  = NodeCache.get 5000 (cacheKey "tofu" 25) (cacheStore w1).
Proof.
  apply (searchFoods_other_entries_untouched Samples.key Samples.base
           (Samples.answering 1000 [Some Samples.water]) "tofu " 25
           (snd (searchFoods Samples.key Samples.base
                   (Samples.answering 0 [Some Samples.tofu]) "tofu" 25 Samples.fresh))
           "tofu" 25 5000).
  left. discriminate.
Defined.

(** X3.  An entry older than 3600 seconds is not served although the store
    still holds it: the search goes to the source, returns the new list and
    puts it in the place of the old entry, with the time of the new
    answer. *)
Theorem searchFoods_refreshes_stale apiKey baseURL env q p w old d :
  cacheStore w !! cacheKey q p = Some old ->
  (NodeCache.stdTTL * 1000 < now env - insertedAt old)%Z ->
  axios_get env (searchRequest apiKey baseURL q p) = Resolved (Some d) ->
  let run := searchFoods apiKey baseURL env q p w in
  fst run = inr (foodsOrEmpty d) /\
  requests (snd run) = (requests w ++ [searchRequest apiKey baseURL q p])%list /\
  cacheStore (snd run) !! cacheKey q p
  = Some {| entryValue := foodsOrEmpty d; insertedAt := now env + latency env |}.
Proof.
  intros Hold Hstale Hd run. subst run.
  assert (Hget : NodeCache.get (now env) (cacheKey q p) (cacheStore w) = None).
  { unfold NodeCache.get. rewrite Hold.
    destruct (Z.ltb_spec NodeCache.ttl_ms (now env - insertedAt old)); [reflexivity|].
    unfold NodeCache.ttl_ms in *. lia. }
  rewrite (searchFoods_miss _ _ _ _ _ _ Hget). cbn zeta. rewrite Hd.
  cbn [fst snd stored sent cacheStore requests].
  repeat split. unfold NodeCache.set. apply lookup_insert_eq.
Qed.

Lemma searchFoods_refreshes_stale_witness :
  let w1 := snd (searchFoods Samples.key Samples.base
                   (Samples.answering 0 [Some Samples.tofu]) "tofu" 25 Samples.fresh) in
  let run := searchFoods Samples.key Samples.base
               (Samples.answering 3700000 [Some Samples.water]) "tofu" 25 w1 in
  fst run = inr [Some Samples.water] /\
  requests (snd run)
  = (requests w1 ++ [searchRequest Samples.key Samples.base "tofu" 25])%list /\
  cacheStore (snd run) !! cacheKey "tofu" 25
  = Some {| entryValue := [Some Samples.water]; insertedAt := 3700120 |}.
Proof.
  apply (searchFoods_refreshes_stale Samples.key Samples.base
           (Samples.answering 3700000 [Some Samples.water]) "tofu" 25
           (snd (searchFoods Samples.key Samples.base
                   (Samples.answering 0 [Some Samples.tofu]) "tofu" 25 Samples.fresh))
           {| entryValue := [Some Samples.tofu]; insertedAt := 120 |}
           {| foods := Some [Some Samples.water] |}).
  - vm_compute; reflexivity.
  - vm_compute; reflexivity.
  - reflexivity.
Defined.

Lemma searchFoods_repeat_at_most_once_witness :
  let w1 := snd (searchFoods Samples.key Samples.base
                   (Samples.answering 0 [Some Samples.tofu]) "tofu" 25 Samples.fresh) in
  let run := searchFoods_repeat Samples.key Samples.base
               [Samples.answering 3600000 [Some Samples.water];
                Samples.answering 3600200 [Some Samples.water];
                Samples.answering 7000000 [Some Samples.biryani]] "tofu" 25 w1 in
  Forall (fun r => exists l, r = inr l) (fst run) /\
  length (requests (snd run)) <= length (requests w1) + 1.
Proof.
  apply (searchFoods_repeat_at_most_once Samples.key Samples.base
           [Samples.answering 3600000 [Some Samples.water];
            Samples.answering 3600200 [Some Samples.water];
            Samples.answering 7000000 [Some Samples.biryani]] "tofu" 25
           (snd (searchFoods Samples.key Samples.base
                   (Samples.answering 0 [Some Samples.tofu]) "tofu" 25 Samples.fresh))
           3600000%Z).
  - cbn. repeat split; discriminate.
  - repeat constructor; intros req; eexists; reflexivity.
  - repeat constructor; vm_compute; discriminate.
Defined.

(** *** More on the energy extractor *)

(** X6.  A [null] in the nutrient list, met before any qualifying entry,
    ends the scan: the error it raises is caught and the extractor returns
    nothing, whatever follows the [null], an energy entry included. *)
Theorem extractCalories_null_entry (food : Food) (before after : list (option Nutrient)) :
  foodNutrients food = Some (before ++ None :: after)%list ->
  Forall passedOver before ->
  extractCalories_try food = inl TypeError /\
  extractCalories food = None.
Proof.
  intros Hn Hb.
  assert (H : find_energy (before ++ None :: after) = inl TypeError).
  { clear Hn. induction Hb as [|x before (n & -> & Hx) _ IH]; [reflexivity|].
    simpl. now rewrite Hx. }
  unfold extractCalories, extractCalories_try. rewrite Hn, H. split; reflexivity.
Qed.

Lemma extractCalories_null_entry_witness :
  let food := Samples.food 5 "Rice, cooked"
                [Some Samples.protein; None; Some (Samples.energy 130)] in
  extractCalories_try food = inl TypeError /\ extractCalories food = None.
Proof.
  apply (extractCalories_null_entry
           (Samples.food 5 "Rice, cooked"
              [Some Samples.protein; None; Some (Samples.energy 130)])
           [Some Samples.protein] [Some (Samples.energy 130)]).
  - reflexivity.
  - repeat constructor. exists Samples.protein. split; reflexivity.
Defined.

(** *** More on the arithmetic *)




(** *** More on the orchestrator *)

(** X9.  The rejection of the HTTP client never leaves [getCalories].
    When the answer of the source holds records only, an error that leaves
    it is one the service built itself, with one of five messages: the
    three of the source client, not found, and calories unavailable, the
    last two naming the dish as it was passed; the TypeError of a missing
    body does not reach the caller either. *)
Theorem getCalories_throws_own_errors
    apiKey baseURL fmul Fuse_search env dish s w e w' :
  getCalories apiKey baseURL fmul Fuse_search env dish s w = (inl e, w') ->
  (forall status, e <> AxiosError status) /\
  ((forall l, fst (searchFoods apiKey baseURL env dish 25 w) = inr l -> allRecords l) ->
   (e = sourceError RateLimited \/ e = sourceError Unauthorized \/
    e = sourceError Transient \/
    e = Error (failureMessage NotFound dish) \/
    e = Error (failureMessage CaloriesUnavailable dish)) /\
   e <> TypeError).
Proof.
  intros H.
  destruct (searchFoods apiKey baseURL env dish 25 w) as [r w1] eqn:Hs.
  rewrite (getCalories_after_search _ _ _ Fuse_search _ _ s _ _ _ Hs) in H.
  cbn [fst].
  destruct r as [e0|[|a l]].
  - injection H as <- _. apply searchFoods_throws in Hs as [st ->].
    destruct (thrownFor_cases st) as [[-> _]|[[-> _]|[-> _]]];
      (split; [discriminate|]); intros _; (split; [auto|discriminate]).
  - injection H as <- _. split; [discriminate|]. intros _. split; [auto|discriminate].
  - destruct (findBestMatch_cases Fuse_search (a :: l) dish)
      as [[c Hc]|[[Hl Hc]|(rest & Hl & _ & Hc)]]; [discriminate| | |];
      rewrite Hc in H.
    + destruct (extractCalories c); [discriminate H|].
      injection H as <- _. split; [discriminate|]. intros _.
      split; [auto 6|discriminate].
    + injection H as <- _. split; [discriminate|]. intros Hrec.
      specialize (Hrec _ eq_refl). rewrite Hl in Hrec.
      apply Forall_cons in Hrec as [[f Hf] _]. discriminate Hf.
    + injection H as <- _. split; [discriminate|]. intros Hrec.
      specialize (Hrec _ eq_refl). rewrite Hl in Hrec.
      apply Forall_cons in Hrec as [[f Hf] _]. discriminate Hf.
Qed.

Lemma getCalories_throws_own_errors_witness :
  (forall status, sourceError Transient <> AxiosError status) /\
  ((forall l, fst (searchFoods Samples.key Samples.base (Samples.unreachable 0)
                     "rice" 25 Samples.fresh) = inr l -> allRecords l) ->
   (sourceError Transient = sourceError RateLimited \/
    sourceError Transient = sourceError Unauthorized \/
    sourceError Transient = sourceError Transient \/
    sourceError Transient = Error (failureMessage NotFound "rice") \/
    sourceError Transient = Error (failureMessage CaloriesUnavailable "rice")) /\
   sourceError Transient <> TypeError).
Proof.
  apply (getCalories_throws_own_errors Samples.key Samples.base Binary64.mul
           Samples.fuse_nothing
           (Samples.unreachable 0) "rice" 1 Samples.fresh (sourceError Transient)
           (snd (searchFoods Samples.key Samples.base (Samples.unreachable 0) "rice" 25
                   Samples.fresh))).
  vm_compute; reflexivity.
Defined.

(** X10.  After a lookup that went to the source and got an answer, a
    second lookup of the same dish within 3600 seconds, for any number of
    servings, sends nothing and leaves the world as it was, whatever the
    source would say by then; it ends as the first lookup would have ended
    for those servings, a failure for want of a record or of an energy
    value included. *)
Theorem getCalories_again_from_cache
    apiKey baseURL fmul Fuse_search env dish s w d env' s' :
  NodeCache.get (now env) (cacheKey dish 25) (cacheStore w) = None ->
  axios_get env (searchRequest apiKey baseURL dish 25) = Resolved (Some d) ->
  (now env' - (now env + latency env) <= NodeCache.stdTTL * 1000)%Z ->
  let w1 := snd (getCalories apiKey baseURL fmul Fuse_search env dish s w) in
  let again := getCalories apiKey baseURL fmul Fuse_search env' dish s' w1 in
  snd again = w1 /\
  requests w1 = (requests w ++ [searchRequest apiKey baseURL dish 25])%list /\
  fst again = fst (getCalories apiKey baseURL fmul Fuse_search env dish s' w).
Proof.
  intros Hmiss Hd Hlater w1 again. subst again w1.
  pose proof (searchFoods_miss apiKey baseURL env dish 25 w Hmiss) as Hs.
  cbn zeta in Hs. rewrite Hd in Hs.
  rewrite (getCalories_after_search _ _ _ Fuse_search _ _ s _ _ _ Hs).
  rewrite (getCalories_after_search _ _ _ Fuse_search _ _ s' _ _ _ Hs).
  cbn [fst snd].
  assert (Hhit : searchFoods apiKey baseURL env' dish 25
                   (stored env (cacheKey dish 25) (foodsOrEmpty d)
                      (sent (searchRequest apiKey baseURL dish 25) w))
                 = (inr (foodsOrEmpty d),
                    stored env (cacheKey dish 25) (foodsOrEmpty d)
                      (sent (searchRequest apiKey baseURL dish 25) w))).
  { apply searchFoods_hit. cbn [stored cacheStore]. now apply NodeCache_get_set. }
  rewrite (getCalories_after_search _ _ _ Fuse_search _ _ s' _ _ _ Hhit).
  cbn [fst snd]. repeat split.
Qed.

Lemma getCalories_again_from_cache_witness :
  let w1 := snd (getCalories Samples.key Samples.base Binary64.mul Samples.fuse_nothing
                   (Samples.answering 0 [Some Samples.biryani]) "chicken biryani" 2
                   Samples.fresh) in
  let again := getCalories Samples.key Samples.base Binary64.mul Samples.fuse_nothing
                 (Samples.unreachable 1800000) "chicken biryani" (5 # 2) w1 in
  snd again = w1 /\
  requests w1 = [searchRequest Samples.key Samples.base "chicken biryani" 25] /\
  fst again = fst (getCalories Samples.key Samples.base Binary64.mul Samples.fuse_nothing
                     (Samples.answering 0 [Some Samples.biryani]) "chicken biryani" (5 # 2)
                     Samples.fresh).
Proof.
  apply (getCalories_again_from_cache Samples.key Samples.base Binary64.mul Samples.fuse_nothing
           (Samples.answering 0 [Some Samples.biryani]) "chicken biryani" 2 Samples.fresh
           {| foods := Some [Some Samples.biryani] |}
           (Samples.unreachable 1800000) (5 # 2)).
  - reflexivity.
  - reflexivity.
  - vm_compute; discriminate.
Defined.

(** *** The constructor *)

(** X13.  The constructor fails exactly when the API key is not set or is
    empty, and it does not look at the base URL.  The object it builds sends
    the key of the environment, which is not empty, with every request, to
    the address made of the base URL as it is put in the template: with no
    base URL set the requests go to "undefined/foods/search". *)
Theorem USDAService_new_checks_key_only (key base : option string) :
  (USDAService_new key base = inl (Error "USDA API key is required") <->
   key = None \/ key = Some "") /\
  (forall this env q p w,
     USDAService_new key base = inr this ->
     NodeCache.get (now env) (cacheKey q p) (cacheStore w) = None ->
     exists req,
       requests (snd (USDAService_searchFoods this env q p w))
         = (requests w ++ [req])%list /\
       key = Some (api_key req) /\ api_key req <> "" /\
       url req = inTemplate base ++ "/foods/search" /\
       (base = None -> url req = "undefined/foods/search")).
Proof.
  split.
  - unfold USDAService_new. destruct key as [[|c k]|]; cbn; split; auto;
      try discriminate; intros [H|H]; discriminate H.
  - intros this env q p w Hnew Hmiss.
    unfold USDAService_new in Hnew.
    destruct key as [[|c k]|]; try discriminate Hnew. cbn in Hnew.
    injection Hnew as <-. unfold USDAService_searchFoods. cbn [this_apiKey this_baseURL].
    eexists. split; [apply searchFoods_miss_requests; exact Hmiss|].
    cbn [api_key url searchRequest]. repeat split; [discriminate|]. now intros ->.
Qed.

Lemma USDAService_new_checks_key_only_witness :
  USDAService_new None (Some Samples.base) = inl (Error "USDA API key is required") /\
  exists req,
    requests (snd (USDAService_searchFoods
                     {| this_apiKey := Samples.key; this_baseURL := None |}
                     (Samples.unreachable 0) "rice" 25 Samples.fresh))
      = [req] /\
    url req = "undefined/foods/search".
Proof.
  split.
  - apply (proj1 (USDAService_new_checks_key_only None (Some Samples.base))).
    now left.
  - destruct (proj2 (USDAService_new_checks_key_only (Some Samples.key) None)
                {| this_apiKey := Samples.key; this_baseURL := None |}
                (Samples.unreachable 0) "rice" 25%Z Samples.fresh
                eq_refl eq_refl) as (req & Hreq & _ & _ & _ & Hurl).
    exists req. split; [exact Hreq | now apply Hurl].
Defined.
